(** * DirectionMonitor (dobbyt.movement._DirectionMonitor)

    A shallow embedding of the direction / curve monitor and of the
    validators it calls, followed by the properties of the specification.

    Conventions of the embedding:
    - a Python number is an exact rational [Q]; comparisons are those of
      [Q] ([Qeq_bool], [Qle_bool]), so results are stated up to [==];
      floating-point rounding is outside the model;
    - a Python object attribute that may not have been assigned yet is an
      [attr]: reading an [Unbound] one raises [AttributeError];
    - a method is a computation in the monad [M]: it takes the object and
      gives back an outcome (a value or a raised exception) together with
      the object as the call left it, since assignments made before a
      raise stay in place;
    - [np.pi * 2] (numpy) and [get_angle] (dobbyt.misc.utils) are the
      variables [two_pi] and [get_angle] of the section.

    The module [Utils] holds the validators of _utils that take tuples,
    lists, integers and booleans, over a wider type of values, and the
    module [Tracker] the TrajectoryTracker without its output file. *)

From Stdlib Require Import ZArith QArith Qround List String Bool Lia Lqa.
Import ListNotations.

Local Open Scope Q_scope.

(** ** Python values that reach the monitor *)

(** [Units = Enum("Units", "Degrees Radians")] *)
Inductive Units := Degrees | Radians.

Inductive pyval :=
| PyNone
| PyNum (q : Q)
| PyStr (s : string)
| PyUnits (u : Units).

Inductive exn := ValueError | AttributeError | IndexError.

Inductive outcome (A : Type) :=
| Ret (a : A)
| Raise (e : exn).
Arguments Ret {A} a.
Arguments Raise {A} e.

Inductive attr (A : Type) :=
| Unbound
| Bound (v : A).
Arguments Unbound {A}.
Arguments Bound {A} v.

(** A recorded sample [(x, y, time)] and a reference point [(x, y)]. *)
Definition xyt := (Q * Q * Q)%type.
Definition xy := (Q * Q)%type.

(** ** Number helpers *)

(** Python's [a % m] on numbers: the result has the sign of [m]. *)
Definition py_mod (a m : Q) : Q := a - m * inject_Z (Qfloor (a / m)).

(** [a > b] *)
Definition Qgt_bool (a b : Q) : bool := negb (Qle_bool a b).

(** [a < b] *)
Definition Qlt_bool (a b : Q) : bool := negb (Qle_bool b a).

(** [l[i]] with Python's negative indices. *)
Definition py_index {A : Type} (l : list A) (i : Z) : outcome A :=
  let n := Z.of_nat (List.length l) in
  let j := if (i <? 0)%Z then (n + i)%Z else i in
  if ((0 <=? j)%Z && (j <? n)%Z)%bool then
    match nth_error l (Z.to_nat j) with
    | Some a => Ret a
    | None => Raise IndexError
    end
  else Raise IndexError.

(** ** The object *)

Record DirectionMonitor := mkDM {
  _log_level : Z;
  _units_per_mm : Q;
  _min_distance : Q;
  _angle_units : Units;
  _zero_angle : attr Q;
  _recent_near_coords : attr (list xyt);
  _pre_recent_coord : attr (option xy);
  _last_angle : attr (option Q);
  _curr_angle : attr (option Q);
  _curr_curve_direction : attr (option Z);
  _curr_curve_start_angle : attr (option Q);
  _curr_curve_start_index : attr (option Z);
  _n_curves : attr Z
}.

Definition with_zero_angle (v : Q) (s : DirectionMonitor) :=
  mkDM (_log_level s) (_units_per_mm s) (_min_distance s) (_angle_units s)
       (Bound v) (_recent_near_coords s) (_pre_recent_coord s) (_last_angle s)
       (_curr_angle s) (_curr_curve_direction s) (_curr_curve_start_angle s)
       (_curr_curve_start_index s) (_n_curves s).

Definition with_recent_near_coords (v : list xyt) (s : DirectionMonitor) :=
  mkDM (_log_level s) (_units_per_mm s) (_min_distance s) (_angle_units s)
       (_zero_angle s) (Bound v) (_pre_recent_coord s) (_last_angle s)
       (_curr_angle s) (_curr_curve_direction s) (_curr_curve_start_angle s)
       (_curr_curve_start_index s) (_n_curves s).

Definition with_pre_recent_coord (v : option xy) (s : DirectionMonitor) :=
  mkDM (_log_level s) (_units_per_mm s) (_min_distance s) (_angle_units s)
       (_zero_angle s) (_recent_near_coords s) (Bound v) (_last_angle s)
       (_curr_angle s) (_curr_curve_direction s) (_curr_curve_start_angle s)
       (_curr_curve_start_index s) (_n_curves s).

Definition with_last_angle (v : option Q) (s : DirectionMonitor) :=
  mkDM (_log_level s) (_units_per_mm s) (_min_distance s) (_angle_units s)
       (_zero_angle s) (_recent_near_coords s) (_pre_recent_coord s) (Bound v)
       (_curr_angle s) (_curr_curve_direction s) (_curr_curve_start_angle s)
       (_curr_curve_start_index s) (_n_curves s).

Definition with_curr_angle (v : option Q) (s : DirectionMonitor) :=
  mkDM (_log_level s) (_units_per_mm s) (_min_distance s) (_angle_units s)
       (_zero_angle s) (_recent_near_coords s) (_pre_recent_coord s) (_last_angle s)
       (Bound v) (_curr_curve_direction s) (_curr_curve_start_angle s)
       (_curr_curve_start_index s) (_n_curves s).

Definition with_curr_curve_direction (v : option Z) (s : DirectionMonitor) :=
  mkDM (_log_level s) (_units_per_mm s) (_min_distance s) (_angle_units s)
       (_zero_angle s) (_recent_near_coords s) (_pre_recent_coord s) (_last_angle s)
       (_curr_angle s) (Bound v) (_curr_curve_start_angle s)
       (_curr_curve_start_index s) (_n_curves s).

Definition with_curr_curve_start_angle (v : option Q) (s : DirectionMonitor) :=
  mkDM (_log_level s) (_units_per_mm s) (_min_distance s) (_angle_units s)
       (_zero_angle s) (_recent_near_coords s) (_pre_recent_coord s) (_last_angle s)
       (_curr_angle s) (_curr_curve_direction s) (Bound v)
       (_curr_curve_start_index s) (_n_curves s).

Definition with_curr_curve_start_index (v : option Z) (s : DirectionMonitor) :=
  mkDM (_log_level s) (_units_per_mm s) (_min_distance s) (_angle_units s)
       (_zero_angle s) (_recent_near_coords s) (_pre_recent_coord s) (_last_angle s)
       (_curr_angle s) (_curr_curve_direction s) (_curr_curve_start_angle s)
       (Bound v) (_n_curves s).

Definition with_n_curves (v : Z) (s : DirectionMonitor) :=
  mkDM (_log_level s) (_units_per_mm s) (_min_distance s) (_angle_units s)
       (_zero_angle s) (_recent_near_coords s) (_pre_recent_coord s) (_last_angle s)
       (_curr_angle s) (_curr_curve_direction s) (_curr_curve_start_angle s)
       (_curr_curve_start_index s) (Bound v).

(** ** Methods as state-and-exception computations *)

Definition M (A : Type) : Type := DirectionMonitor -> outcome A * DirectionMonitor.

Definition ret {A : Type} (a : A) : M A := fun s => (Ret a, s).

Definition raise {A : Type} (e : exn) : M A := fun s => (Raise e, s).

Definition bind {A B : Type} (m : M A) (k : A -> M B) : M B :=
  fun s =>
    match m s with
    | (Ret a, s') => k a s'
    | (Raise e, s') => (Raise e, s')
    end.

Declare Scope py_scope.
Delimit Scope py_scope with py.
Notation "x <- m ;; k" := (bind m (fun x => k))
  (at level 100, m at next level, right associativity) : py_scope.
Notation "m ;; k" := (bind m (fun _ => k))
  (at level 100, right associativity) : py_scope.
Local Open Scope py_scope.

(** [self.<name>] as an expression. *)
Definition get_attr {A : Type} (f : DirectionMonitor -> attr A) : M A :=
  fun s =>
    match f s with
    | Bound v => (Ret v, s)
    | Unbound => (Raise AttributeError, s)
    end.

(** [self.<name> = v] *)
Definition assign (upd : DirectionMonitor -> DirectionMonitor) : M unit :=
  fun s => (Ret tt, upd s).

(** A pure expression that may raise. *)
Definition lift {A : Type} (o : outcome A) : M A := fun s => (o, s).

(** The object as a call leaves it, and what the call gave. *)
Definition exec {A : Type} (m : M A) (s : DirectionMonitor) : DirectionMonitor := snd (m s).
Definition result {A : Type} (m : M A) (s : DirectionMonitor) : outcome A := fst (m s).

(** ** _utils: validators *)

(** [isinstance(value, numbers.Number)] *)
Definition is_number (v : pyval) : bool :=
  match v with PyNum _ => true | _ => false end.

(** [isinstance(value, DirectionMonitor.Units)] *)
Definition is_units (v : pyval) : bool :=
  match v with PyUnits _ => true | _ => false end.

Definition is_none (v : pyval) : bool :=
  match v with PyNone => true | _ => false end.

Definition validate_func_arg_type (value : pyval) (arg_type : pyval -> bool)
    (none_allowed : bool) : outcome unit :=
  if ((is_none value && negb none_allowed)
      || (negb (is_none value) && negb (arg_type value)))%bool
  then Raise ValueError
  else Ret tt.

(** [value is not None and value < 0]; the comparison is only ever reached
    with a number, the type having been validated before. *)
Definition validate_func_arg_not_negative (value : pyval) : outcome unit :=
  match value with
  | PyNum q => if Qlt_bool q 0 then Raise ValueError else Ret tt
  | _ => Ret tt
  end.

Definition validate_func_arg_positive (value : pyval) : outcome unit :=
  match value with
  | PyNum q => if Qle_bool q 0 then Raise ValueError else Ret tt
  | _ => Ret tt
  end.

Definition validate_attr_type (value : pyval) (attr_type : pyval -> bool)
    (none_allowed : bool) : outcome unit :=
  if ((is_none value && negb none_allowed)
      || (negb (is_none value) && negb (attr_type value)))%bool
  then Raise ValueError
  else Ret tt.

(** [validate_attr_numeric] with its default [none_value=NoneValues.Invalid]. *)
Definition validate_attr_numeric (value : pyval) : outcome pyval :=
  if is_none value then Raise ValueError
  else if negb (is_number value) then Raise ValueError
  else Ret value.

Definition validate_attr_not_negative (value : pyval) : outcome unit :=
  match value with
  | PyNum q => if Qlt_bool q 0 then Raise ValueError else Ret tt
  | _ => Ret tt
  end.

(** ** _utils over every kind of value

    The attribute validators that take tuples, lists, integers and
    booleans: the values are those of [pyobject], where, as in Python, a
    boolean is an [int] and an [int] is a number. *)

Module Utils.

#[warnings="-register-all"]
Inductive pyobject :=
| VNone
| VBool (b : bool)
| VInt (z : Z)
| VFloat (q : Q)
| VStr (s : string)
| VTuple (items : list pyobject)
| VList (items : list pyobject)
| VXYPoint (x y : pyobject).

Definition is_none (v : pyobject) : bool :=
  match v with VNone => true | _ => false end.

(** [isinstance(v, int)] and the integer it stands for. *)
Definition int_of (v : pyobject) : option Z :=
  match v with
  | VBool b => Some (if b then 1 else 0)%Z
  | VInt z => Some z
  | _ => None
  end.

Definition is_int (v : pyobject) : bool :=
  match int_of v with Some _ => true | None => false end.

(** [isinstance(v, numbers.Number)] and the number it stands for. *)
Definition num_of (v : pyobject) : option Q :=
  match v with
  | VBool b => Some (if b then 1 else 0)
  | VInt z => Some (inject_Z z)
  | VFloat q => Some q
  | _ => None
  end.

Definition is_number (v : pyobject) : bool :=
  match num_of v with Some _ => true | None => false end.

Definition is_bool (v : pyobject) : bool :=
  match v with VBool _ => true | _ => false end.

Definition is_tuple (v : pyobject) : bool :=
  match v with VTuple _ => true | _ => false end.

(** [isinstance(v, (tuple, list))] *)
Definition is_tuple_or_list (v : pyobject) : bool :=
  match v with VTuple _ | VList _ => true | _ => false end.

(** [len(v)] and [v[i]] of a tuple or a list. *)
Definition items_of (v : pyobject) : list pyobject :=
  match v with VTuple l | VList l => l | _ => [] end.

Definition item (v : pyobject) (i : nat) : pyobject := nth i (items_of v) VNone.

Definition validate_attr_type (value : pyobject) (attr_type : pyobject -> bool)
    (none_allowed : bool) : outcome unit :=
  if ((is_none value && negb none_allowed)
      || (negb (is_none value) && negb (attr_type value)))%bool
  then Raise ValueError
  else Ret tt.

Definition validate_func_arg_type (value : pyobject) (arg_type : pyobject -> bool)
    (none_allowed : bool) : outcome unit :=
  if ((is_none value && negb none_allowed)
      || (negb (is_none value) && negb (arg_type value)))%bool
  then Raise ValueError
  else Ret tt.

(** [isinstance(v, int) and 0 <= v < bound] *)
Definition int_below (bound : Z) (v : pyobject) : bool :=
  match int_of v with
  | Some z => ((0 <=? z) && (z <? bound))%Z%bool
  | None => false
  end.

Definition validate_attr_rgb (value : pyobject) (accept_single_num : bool)
    : outcome pyobject :=
  if (accept_single_num && int_below (2 ^ 24) value)%bool then
    match int_of value with
    | Some v => Ret (VTuple [VInt (v / 2 ^ 16); VInt ((v / 256) mod 256);
                             VInt (v mod 256)])%Z
    | None => Raise ValueError
    end
  else
    match validate_attr_type value is_tuple false with
    | Raise e => Raise e
    | Ret _ =>
        if (negb (Nat.eqb (List.length (items_of value)) 3)
            || negb (int_below 256 (item value 0))
            || negb (int_below 256 (item value 1))
            || negb (int_below 256 (item value 2)))%bool
        then Raise ValueError
        else Ret value
    end.

Definition validate_attr_is_coord (value : pyobject) (change_none_to_0 : bool)
    : outcome pyobject :=
  if (is_none value && change_none_to_0)%bool then Ret (VTuple [VInt 0; VInt 0])
  else
    let value := match value with
                 | VXYPoint x y => VTuple [x; y]
                 | _ => value
                 end in
    match validate_attr_type value is_tuple_or_list false with
    | Raise e => Raise e
    | Ret _ =>
        if negb (Nat.eqb (List.length (items_of value)) 2) then Raise ValueError
        else
          match validate_attr_type (item value 0) is_int false with
          | Raise e => Raise e
          | Ret _ =>
              match validate_attr_type (item value 1) is_int false with
              | Raise e => Raise e
              | Ret _ => Ret value
              end
          end
    end.

End Utils.

(** ** TrajectoryTracker (dobbyt.movement._TrajectoryTracker)

    The tracker without its output file. What it hands to the event log of
    expyriment is kept, in order, in [event_log]; the calls to expyriment
    are taken to return. *)

Module Tracker.

Import Utils.

Inductive event :=
| Reset_event                          (* "Trajectory,Reset" *)
| Track_xyt_event (x y t : pyobject)      (* "Trajectory,Track_xyt,x,y,t" *)
| set_obj_attr_event (name : string) (v : pyobject).

Record TrajectoryTracker := mkTT {
  _log_level : Z;
  _tracking_active : bool;
  (* the dictionary with the keys 'x', 'y' and 'time' *)
  _trajectory_x : list pyobject;
  _trajectory_y : list pyobject;
  _trajectory_time : list pyobject;
  _filename : option string;
  event_log : list event
}.

Definition log_trace : Z := 1.
Definition log_none : Z := 9999.

(** [_log_setter]: at trace level, the new value goes to the event log. *)
Definition _log_setter (name : string) (v : pyobject) (s : TrajectoryTracker)
    : TrajectoryTracker :=
  if (_log_level s >? log_trace)%Z then s
  else mkTT (_log_level s) (_tracking_active s) (_trajectory_x s)
            (_trajectory_y s) (_trajectory_time s) (_filename s)
            (event_log s ++ [set_obj_attr_event name v]).

(** [if self._log_level: expyriment._active_exp._event_file_log(...)] *)
Definition log_event (e : event) (s : TrajectoryTracker) : TrajectoryTracker :=
  if (_log_level s =? 0)%Z then s
  else mkTT (_log_level s) (_tracking_active s) (_trajectory_x s)
            (_trajectory_y s) (_trajectory_time s) (_filename s)
            (event_log s ++ [e]).

(** The [tracking_active] setter. *)
Definition set_tracking_active (value : pyobject) (s : TrajectoryTracker)
    : outcome unit * TrajectoryTracker :=
  match validate_attr_type value is_bool false with
  | Raise e => (Raise e, s)
  | Ret _ =>
      match value with
      | VBool b =>
          (Ret tt,
           _log_setter "tracking_active" value
             (mkTT (_log_level s) b (_trajectory_x s) (_trajectory_y s)
                   (_trajectory_time s) (_filename s) (event_log s)))
      | _ => (Raise ValueError, s)
      end
  end.

(** [reset(tracking_active=None)] *)
Definition reset (tracking_active : pyobject) (s : TrajectoryTracker)
    : outcome unit * TrajectoryTracker :=
  match (if negb (is_none tracking_active)
         then set_tracking_active tracking_active s
         else (Ret tt, s)) with
  | (Raise e, s') => (Raise e, s')
  | (Ret _, s') =>
      (Ret tt,
       log_event Reset_event
         (mkTT (_log_level s') (_tracking_active s') [] [] []
               (_filename s') (event_log s')))
  end.

(** [update_xyt(x_coord, y_coord, time)] *)
Definition update_xyt (x_coord y_coord time : pyobject) (s : TrajectoryTracker)
    : outcome unit * TrajectoryTracker :=
  if negb (_tracking_active s) then (Ret tt, s)
  else
    match validate_func_arg_type x_coord is_number false with
    | Raise e => (Raise e, s)
    | Ret _ =>
    match validate_func_arg_type y_coord is_number false with
    | Raise e => (Raise e, s)
    | Ret _ =>
    match validate_func_arg_type time is_number false with
    | Raise e => (Raise e, s)
    | Ret _ =>
    match validate_func_arg_type time is_number false with
    | Raise e => (Raise e, s)
    | Ret _ =>
    match num_of time with
    | None => (Raise ValueError, s)
    | Some t =>
        if Qlt_bool t 0 then (Raise ValueError, s)
        else
          (Ret tt,
           log_event (Track_xyt_event x_coord y_coord time)
             (mkTT (_log_level s) (_tracking_active s)
                   (_trajectory_x s ++ [x_coord])
                   (_trajectory_y s ++ [y_coord])
                   (_trajectory_time s ++ [time])
                   (_filename s) (event_log s)))
    end end end end end.

(** [zip(a, b, c)] *)
Fixpoint zip3 {A B C : Type} (a : list A) (b : list B) (c : list C)
    : list (A * B * C) :=
  match a, b, c with
  | x :: a', y :: b', z :: c' => (x, y, z) :: zip3 a' b' c'
  | _, _, _ => []
  end.

(** [get_xyt()] *)
Definition get_xyt (s : TrajectoryTracker) : list (pyobject * pyobject * pyobject) :=
  zip3 (_trajectory_x s) (_trajectory_y s) (_trajectory_time s).

(** The constructor: the log level of [_DobbyObject], [reset(False)], no
    file name. [reset(False)] assigns the flag and the trajectory before
    anything reads them, so what the record holds for them before the call
    does not matter. *)
Definition __init__ : outcome unit * TrajectoryTracker :=
  match reset (VBool false) (mkTT log_none false [] [] [] None []) with
  | (Raise e, s) => (Raise e, s)
  | (Ret _, s) =>
      (Ret tt,
       mkTT (_log_level s) (_tracking_active s) (_trajectory_x s)
            (_trajectory_y s) (_trajectory_time s) None (event_log s))
  end.

(** A session: [update_xyt] calls made one after the other. *)
Fixpoint run_updates (samples : list (pyobject * pyobject * pyobject))
    (s : TrajectoryTracker) : TrajectoryTracker :=
  match samples with
  | [] => s
  | (x, y, t) :: rest => run_updates rest (snd (update_xyt x y t s))
  end.

(** The three lists of the trajectory have one length. *)
Definition balanced (s : TrajectoryTracker) : Prop :=
  List.length (_trajectory_x s) = List.length (_trajectory_time s)
  /\ List.length (_trajectory_y s) = List.length (_trajectory_time s).

(** The arguments that [update_xyt] stores when tracking is active. *)
Definition accepted (sample : pyobject * pyobject * pyobject) : bool :=
  let '(x, y, t) := sample in
  (is_number x && is_number y
   && match num_of t with
      | Some q => negb (Qlt_bool q 0)
      | None => false
      end)%bool.

(** A tracker after [TrajectoryTracker()] and [reset(True)]. *)
Definition active_tracker : TrajectoryTracker :=
  snd (reset (VBool true) (snd __init__)).

End Tracker.

(** ** DirectionMonitor *)

Section Monitor.

(** [np.pi * 2] *)
Variable two_pi : Q.

(** [dobbyt.misc.utils.get_angle(xy1, xy2)]: the direction, in radians, of
    the vector from [xy1] to [xy2]; the second argument is handed the whole
    [(x, y, time)] sample. *)
Variable get_angle : xy -> xyt -> Q.

(** [_DobbyObject.log_none] *)
Definition log_none : Z := 9999.

(** The constructor: [super().__init__()] sets the log level, then the
    arguments are validated and stored, the last two through their property
    setters ([_log_setter] returns at once, the log level being
    [log_none]). Nothing else is assigned: neither the window and curve
    attributes of [reset] nor [_zero_angle]. *)
Definition __init__ (units_per_mm min_distance angle_units : pyval)
    : outcome DirectionMonitor :=
  match validate_func_arg_type units_per_mm is_number false with
  | Raise e => Raise e
  | Ret _ =>
  match validate_func_arg_positive units_per_mm with
  | Raise e => Raise e
  | Ret _ =>
  (* self.min_distance = min_distance *)
  match validate_attr_numeric min_distance with
  | Raise e => Raise e
  | Ret _ =>
  match validate_attr_not_negative min_distance with
  | Raise e => Raise e
  | Ret _ =>
  (* self.angle_units = angle_units *)
  match validate_attr_type angle_units is_units false with
  | Raise e => Raise e
  | Ret _ =>
  match units_per_mm, min_distance, angle_units with
  | PyNum u, PyNum d, PyUnits a =>
      Ret (mkDM log_none u d a Unbound Unbound Unbound Unbound Unbound
                Unbound Unbound Unbound Unbound)
  | _, _, _ => Raise ValueError
  end end end end end end.

(** The [zero_angle] setter. *)
Definition set_zero_angle (value : pyval) : M unit :=
  v <- lift (validate_attr_numeric value);;
  match v with
  | PyNum z => assign (with_zero_angle z)
  | _ => raise ValueError
  end.

(** [reset()] *)
Definition reset : M unit :=
  assign (with_recent_near_coords []);;
  assign (with_pre_recent_coord None);;
  assign (with_last_angle None);;
  assign (with_curr_curve_direction None);;
  assign (with_curr_curve_start_angle None);;
  assign (with_curr_curve_start_index None);;
  assign (with_n_curves 0%Z).

(** The loop of [_remove_far_enough_recent_coords]:
    [for i in range(len(coords)-1, 0, -1)], entered at [i = len(coords)-1];
    the range stops before index 0. *)
Fixpoint scan_back (coords : list xyt) (x_coord y_coord sq_min_distance : Q)
    (i : nat) : option xy :=
  match i with
  | O => None
  | S j =>
      match nth_error coords i with
      | Some (x, y, _) =>
          if Qle_bool sq_min_distance ((x - x_coord) ^ 2 + (y - y_coord) ^ 2)
          then Some (x, y)
          else scan_back coords x_coord y_coord sq_min_distance j
      | None => None
      end
  end.

Definition _remove_far_enough_recent_coords (x_coord y_coord : Q) : M unit :=
  coords <- get_attr _recent_near_coords;;
  if Nat.eqb (List.length coords) 0 then ret tt
  else
    fun s =>
      let sq_min_distance := (_min_distance s * _units_per_mm s) ^ 2 in
      (assign (with_pre_recent_coord None);;
       match scan_back coords x_coord y_coord sq_min_distance
                       (List.length coords - 1) with
       | Some p => assign (with_pre_recent_coord (Some p))
       | None => ret tt
       end) s.

Definition _max_angle (s : DirectionMonitor) : Q :=
  match _angle_units s with
  | Degrees => 360
  | Radians => two_pi
  end.

(** Lines 108-113 of [_calc_curr_angle]: the shift by [zero_angle]. *)
Definition shift_zero (zero_angle max_angle angle : Q) : Q :=
  if negb (Qeq_bool zero_angle 0) then
    let angle := angle - zero_angle in
    let angle := py_mod angle max_angle in
    if Qgt_bool angle (max_angle / 2) then angle - max_angle else angle
  else angle.

(** Line 106: radians to the configured units. *)
Definition to_units (u : Units) (angle : Q) : Q :=
  match u with
  | Degrees => angle / two_pi * 360
  | Radians => angle
  end.

Definition _calc_curr_angle : M unit :=
  pre <- get_attr _pre_recent_coord;;
  match pre with
  | None => assign (with_curr_angle None)
  | Some p =>
      coords <- get_attr _recent_near_coords;;
      last <- lift (py_index coords (-1));;
      let angle := get_angle p last in
      fun s =>
        let angle := to_units (_angle_units s) angle in
        (zero_angle <- get_attr _zero_angle;;
         let angle := shift_zero zero_angle (_max_angle s) angle in
         assign (with_curr_angle (Some angle))) s
  end.

(** Lines 129-134 of [_check_if_new_curve]: the turning direction between
    two angles, [None] when the angle did not change. *)
Definition turn_direction (max_angle curr_angle prev_angle : Q) : option Z :=
  let change_in_angle := py_mod (curr_angle - prev_angle) max_angle in
  if Qeq_bool change_in_angle 0 then None
  else Some (if Qle_bool change_in_angle (max_angle / 2) then 1%Z else (-1)%Z).

(** [curr_curve_direction != self._curr_curve_direction] *)
Definition differs (d : Z) (recorded : option Z) : bool :=
  match recorded with
  | Some r => negb (Z.eqb d r)
  | None => true
  end.

Definition _check_if_new_curve (prev_angle : option Q) : M unit :=
  curr <- get_attr _curr_angle;;
  match curr, prev_angle with
  | Some curr_angle, Some prev =>
      fun s =>
        match turn_direction (_max_angle s) curr_angle prev with
        | None => ret tt s
        | Some curr_curve_direction =>
            (recorded <- get_attr _curr_curve_direction;;
             if differs curr_curve_direction recorded then
               assign (with_curr_curve_direction (Some curr_curve_direction));;
               a <- get_attr _curr_angle;;
               assign (with_curr_curve_start_angle a);;
               coords <- get_attr _recent_near_coords;;
               assign (with_curr_curve_start_index
                         (Some (Z.of_nat (List.length coords) - 1)%Z));;
               n <- get_attr _n_curves;;
               assign (with_n_curves (n + 1)%Z)
             else ret tt) s
        end
  | _, _ => ret tt
  end.

(** [update_xyt(x_coord, y_coord, time)] *)
Definition update_xyt (x_coord y_coord time : pyval) : M unit :=
  lift (validate_func_arg_type x_coord is_number false);;
  lift (validate_func_arg_type y_coord is_number false);;
  lift (validate_func_arg_type time is_number false);;
  lift (validate_func_arg_not_negative time);;
  match x_coord, y_coord, time with
  | PyNum x, PyNum y, PyNum t =>
      _remove_far_enough_recent_coords x y;;
      coords <- get_attr _recent_near_coords;;
      assign (with_recent_near_coords (coords ++ [(x, y, t)]));;
      last_angle <- get_attr _curr_angle;;
      _calc_curr_angle;;
      _check_if_new_curve last_angle
  | _, _, _ => raise ValueError
  end.

(** ** Accessors *)

Definition curr_angle : M (option Q) := get_attr _curr_angle.

Definition curr_curve_direction : M (option Z) := get_attr _curr_curve_direction.

Definition curr_curve_start_angle : M (option Q) := get_attr _curr_curve_start_angle.

Definition curr_curve_start_xyt : M (option xyt) :=
  i <- get_attr _curr_curve_start_index;;
  match i with
  | None => ret None
  | Some i =>
      coords <- get_attr _recent_near_coords;;
      v <- lift (py_index coords i);;
      ret (Some v)
  end.

Definition n_curves : M Z := get_attr _n_curves.

(** A session: a list of [update_xyt] calls made one after the other on
    the same object, a raised exception being the caller's to handle. *)
Fixpoint run_updates (samples : list (pyval * pyval * pyval))
    (s : DirectionMonitor) : DirectionMonitor :=
  match samples with
  | [] => s
  | (x, y, t) :: rest => run_updates rest (exec (update_xyt x y t) s)
  end.


(** ** Auxiliary definitions for the statements *)

(** The four attributes of the curve state. *)
Definition curve_state (s : DirectionMonitor) :=
  (_curr_curve_direction s, _curr_curve_start_angle s,
   _curr_curve_start_index s, _n_curves s).

(** A rational stand-in for [np.pi * 2], for sample runs. *)
Definition approx_two_pi : Q := 710 # 113.

(** A stand-in for [get_angle] on moves parallel to an axis, for sample
    runs: 0 is up, then a quarter turn for right, down and left. *)
Definition axis_angle (p : xy) (q : xyt) : Q :=
  let '(x1, y1) := p in
  let '(x2, y2, _) := q in
  if Qeq_bool (x2 - x1) 0 then
    if Qlt_bool 0 (y2 - y1) then 0 else approx_two_pi / 2
  else if Qlt_bool 0 (x2 - x1) then approx_two_pi / 4
  else approx_two_pi * 3 / 4.

(** The object that [DirectionMonitor(units_per_mm=1)] builds. *)
Definition fresh_monitor : DirectionMonitor :=
  mkDM log_none 1 0 Degrees Unbound Unbound Unbound Unbound Unbound
       Unbound Unbound Unbound Unbound.

(** The same after [reset()]. *)
Definition reset_monitor : DirectionMonitor := exec reset fresh_monitor.

(** [reset_monitor] with the two attributes bound that [update_xyt] reads
    and that neither the constructor nor [reset] assigns: [zero_angle = 0]
    and [_curr_angle = None]. *)
Definition primed_monitor : DirectionMonitor :=
  with_curr_angle None (with_zero_angle 0 reset_monitor).

(** The claim of the specification that the first turn of a session is
    not counted, as it is worded: with no direction recorded yet, a
    computed turn is recorded and [_n_curves] keeps its value. *)
Definition first_turn_not_counted : Prop :=
  forall (s : DirectionMonitor) (c p : Q) (d : Z) (l : list xyt) (n : Z),
    _curr_angle s = Bound (Some c) ->
    turn_direction (_max_angle s) c p = Some d ->
    _curr_curve_direction s = Bound None ->
    _recent_near_coords s = Bound l ->
    _n_curves s = Bound n ->
    let s' := exec (_check_if_new_curve (Some p)) s in
    _curr_curve_direction s' = Bound (Some d) /\ _n_curves s' = Bound n.

(** A recorded curve start points into the window. *)
Definition curve_start_valid (s : DirectionMonitor) : Prop :=
  forall i, _curr_curve_start_index s = Bound (Some i) ->
    exists l, _recent_near_coords s = Bound l
              /\ (0 <= i < Z.of_nat (List.length l))%Z.

(** Two samples 10 units apart, as [update_xyt] arguments. *)
Definition two_far_samples : list (pyval * pyval * pyval) :=
  [(PyNum 0, PyNum 0, PyNum 0); (PyNum 10, PyNum 0, PyNum 100)].

(** An object in mid-session, in degrees with [zero_angle = 0] and
    [min_distance = 0]: three samples going up, the angle 0 computed from
    the last two, no curve yet. *)
Definition moving_up : DirectionMonitor :=
  mkDM log_none 1 0 Degrees (Bound 0)
       (Bound [(0, 0, 0); (0, 10, 1); (0, 20, 2)])
       (Bound (Some (0, 10))) (Bound None) (Bound (Some 0))
       (Bound None) (Bound None) (Bound None) (Bound 0%Z).

(** [moving_up] one sample later, as [_check_if_new_curve] finds it: the
    fourth sample is to the right of the third, the angle is 90, and the
    angle of the update before, 0, is the argument of the call. *)
Definition turned_right : DirectionMonitor :=
  mkDM log_none 1 0 Degrees (Bound 0)
       (Bound [(0, 0, 0); (0, 10, 1); (0, 20, 2); (10, 20, 3)])
       (Bound (Some (0, 20))) (Bound None) (Bound (Some 90))
       (Bound None) (Bound None) (Bound None) (Bound 0%Z).

(** [turned_right] with another angle. *)
Definition at_angle (a : Q) : DirectionMonitor :=
  with_curr_angle (Some a) turned_right.

(** An object with [zero_angle = 90] and a reference sample, as
    [_calc_curr_angle] finds it. *)
Definition zero_at_90 : DirectionMonitor :=
  mkDM log_none 1 0 Degrees (Bound 90)
       (Bound [(0, 0, 0); (10, 0, 1)])
       (Bound (Some (0, 0))) (Bound None) (Bound None)
       (Bound None) (Bound None) (Bound None) (Bound 0%Z).


(** ** The property setters and sequences of calls *)

Definition with_min_distance (v : Q) (s : DirectionMonitor) :=
  mkDM (_log_level s) (_units_per_mm s) v (_angle_units s)
       (_zero_angle s) (_recent_near_coords s) (_pre_recent_coord s) (_last_angle s)
       (_curr_angle s) (_curr_curve_direction s) (_curr_curve_start_angle s)
       (_curr_curve_start_index s) (_n_curves s).

Definition with_angle_units (v : Units) (s : DirectionMonitor) :=
  mkDM (_log_level s) (_units_per_mm s) (_min_distance s) v
       (_zero_angle s) (_recent_near_coords s) (_pre_recent_coord s) (_last_angle s)
       (_curr_angle s) (_curr_curve_direction s) (_curr_curve_start_angle s)
       (_curr_curve_start_index s) (_n_curves s).

(** The [min_distance] setter; [_log_setter] returns at once, the log
    level being [log_none] (see [__init__]). *)
Definition set_min_distance (value : pyval) : M unit :=
  lift (validate_attr_numeric value);;
  lift (validate_attr_not_negative value);;
  match value with
  | PyNum d => assign (with_min_distance d)
  | _ => raise ValueError
  end.

(** The [angle_units] setter. *)
Definition set_angle_units (value : pyval) : M unit :=
  lift (validate_attr_type value is_units false);;
  match value with
  | PyUnits u => assign (with_angle_units u)
  | _ => raise ValueError
  end.

(** A call of the public interface on an existing object. *)
Inductive call :=
| CallReset
| CallUpdate (x_coord y_coord time : pyval)
| CallSetMinDistance (value : pyval)
| CallSetAngleUnits (value : pyval)
| CallSetZeroAngle (value : pyval).

Definition do_call (c : call) : M unit :=
  match c with
  | CallReset => reset
  | CallUpdate x y t => update_xyt x y t
  | CallSetMinDistance v => set_min_distance v
  | CallSetAngleUnits v => set_angle_units v
  | CallSetZeroAngle v => set_zero_angle v
  end.

(** The calls made one after the other, exceptions being the caller's to
    handle. *)
Fixpoint run_calls (cs : list call) (s : DirectionMonitor) : DirectionMonitor :=
  match cs with
  | [] => s
  | c :: rest => run_calls rest (exec (do_call c) s)
  end.

(** ** More auxiliary definitions *)

(** [(self._min_distance * self._units_per_mm) ** 2] *)
Definition sq_min_distance (s : DirectionMonitor) : Q :=
  (_min_distance s * _units_per_mm s) ^ 2.

(** The test of the scan on one stored sample. *)
Definition far_enough (sq x_coord y_coord : Q) (c : xyt) : bool :=
  let '(x, y, _) := c in
  Qle_bool sq ((x - x_coord) ^ 2 + (y - y_coord) ^ 2).

Definition xy_of (c : xyt) : xy := let '(x, y, _) := c in (x, y).

(** A sample as the arguments of [update_xyt]. *)
Definition to_args (c : xyt) : pyval * pyval * pyval :=
  let '(x, y, t) := c in (PyNum x, PyNum y, PyNum t).

(** The curve attributes agree with each other: either nothing is recorded
    and the count is 0, or a direction +1 or -1 is recorded together with a
    start angle and a start index inside the window, and the count is at
    least 1. *)
Definition curve_consistent (s : DirectionMonitor) : Prop :=
  (_curr_curve_direction s = Bound None
   /\ _curr_curve_start_angle s = Bound None
   /\ _curr_curve_start_index s = Bound None
   /\ _n_curves s = Bound 0%Z)
  \/ (exists d a i n l,
        _curr_curve_direction s = Bound (Some d) /\ (d = 1 \/ d = -1)%Z
        /\ _curr_curve_start_angle s = Bound (Some a)
        /\ _curr_curve_start_index s = Bound (Some i)
        /\ _n_curves s = Bound n /\ (1 <= n)%Z
        /\ _recent_near_coords s = Bound l
        /\ (0 <= i < Z.of_nat (List.length l))%Z).

(** What every call of the public interface keeps, on an object that the
    constructor built: [_curr_angle] is not bound, and the curve attributes
    are either not bound or as [reset()] leaves them. *)
Definition never_computed (s : DirectionMonitor) : Prop :=
  _curr_angle s = Unbound
  /\ (curve_state s = (Unbound, Unbound, Unbound, Unbound)
      \/ curve_state s = (Bound None, Bound None, Bound None, Bound 0%Z)).

(** [turned_right] after its first curve was recorded: the direction +1,
    started at the angle 90 and at the fourth sample, and a count of 1. *)
Definition after_first_curve : DirectionMonitor :=
  mkDM log_none 1 0 Degrees (Bound 0)
       (Bound [(0, 0, 0); (0, 10, 1); (0, 20, 2); (10, 20, 3)])
       (Bound (Some (0, 20))) (Bound None) (Bound (Some 90))
       (Bound (Some 1%Z)) (Bound (Some 90)) (Bound (Some 3%Z)) (Bound 1%Z).

(** An object with a minimal distance of 15 and four samples going up. *)
Definition spaced_monitor : DirectionMonitor :=
  mkDM log_none 1 15 Degrees (Bound 0)
       (Bound [(0, 0, 0); (0, 10, 1); (0, 20, 2); (0, 25, 3)])
       (Bound None) (Bound None) (Bound None)
       (Bound None) (Bound None) (Bound None) (Bound 0%Z).

(** * Properties *)

(** ** Numbers *)

Lemma py_mod_range (a m : Q) : 0 < m -> 0 <= py_mod a m /\ py_mod a m < m.
Proof.
  intros Hm. unfold py_mod.
  assert (Ha : a == (a / m) * m) by (field; intro E; rewrite E in Hm; discriminate).
  pose proof (Qfloor_le (a / m)) as Hlo.
  pose proof (Qlt_floor (a / m)) as Hhi.
  rewrite inject_Z_plus in Hhi.
  revert Ha Hlo Hhi. generalize (inject_Z (Qfloor (a / m))) as k.
  generalize (a / m) as q. intros q k Ha Hlo Hhi.
  change (inject_Z 1) with 1 in Hhi.
  split; nra.
Qed.

Lemma py_mod_congruent (a m : Q) :
  py_mod a m == a - inject_Z (Qfloor (a / m)) * m.
Proof. unfold py_mod. ring. Qed.

Lemma Qgt_bool_true (a b : Q) : Qgt_bool a b = true <-> b < a.
Proof.
  unfold Qgt_bool. rewrite negb_true_iff, <- not_true_iff_false, Qle_bool_iff.
  split; [apply Qnot_le_lt | apply Qlt_not_le].
Qed.

Lemma Qgt_bool_false (a b : Q) : Qgt_bool a b = false <-> a <= b.
Proof. unfold Qgt_bool. rewrite negb_false_iff. apply Qle_bool_iff. Qed.


Lemma Qlt_bool_false (a b : Q) : Qlt_bool a b = false <-> b <= a.
Proof. apply Qgt_bool_false. Qed.

Lemma Qle_bool_false (a b : Q) : Qle_bool a b = false <-> b < a.
Proof.
  rewrite <- not_true_iff_false, Qle_bool_iff.
  split; [apply Qnot_le_lt | apply Qlt_not_le].
Qed.

Lemma Qeq_bool_false (a b : Q) : Qeq_bool a b = false <-> ~ a == b.
Proof. rewrite <- not_true_iff_false, Qeq_bool_iff. tauto. Qed.

(** The direction of a turn, read off the change in angle. *)
Lemma turn_direction_spec (max_angle curr prev : Q) :
  let delta := py_mod (curr - prev) max_angle in
  (delta == 0 -> turn_direction max_angle curr prev = None)
  /\ (~ delta == 0 -> delta <= max_angle / 2 ->
      turn_direction max_angle curr prev = Some 1%Z)
  /\ (~ delta == 0 -> max_angle / 2 < delta ->
      turn_direction max_angle curr prev = Some (-1)%Z).
Proof.
  intros delta. unfold turn_direction. fold delta.
  repeat split.
  - intros H. apply Qeq_bool_iff in H. now rewrite H.
  - intros Hn Hle. apply Qeq_bool_false in Hn. apply Qle_bool_iff in Hle.
    now rewrite Hn, Hle.
  - intros Hn Hlt. apply Qeq_bool_false in Hn. apply Qle_bool_false in Hlt.
    now rewrite Hn, Hlt.
Qed.

Lemma py_mod_self_zero (a m : Q) : py_mod (a - a) m == 0.
Proof.
  unfold py_mod.
  assert (E : (a - a) / m == 0) by (unfold Qdiv; ring).
  rewrite E. change (Qfloor 0) with 0%Z. change (inject_Z 0) with 0. ring.
Qed.

Lemma turn_direction_same (m a : Q) : turn_direction m a a = None.
Proof.
  apply (proj1 (turn_direction_spec m a a)). apply py_mod_self_zero.
Qed.

(** ** Stepping through a method body *)

Ltac unfold_py :=
  unfold exec, result, bind, get_attr, assign, lift, ret, raise in *.

(** Linear arithmetic over [Q], halves written as products. *)
Ltac lra_half := unfold Qdiv in *; change (/ 2) with (1 # 2) in *; lra.

(** ** The monitor *)

(** With numbers and a time that is not negative, [update_xyt] is its body
    after the validation. *)
Lemma update_xyt_valid (x y t : Q) (s : DirectionMonitor) :
  0 <= t ->
  update_xyt (PyNum x) (PyNum y) (PyNum t) s =
  (_remove_far_enough_recent_coords x y;;
   coords <- get_attr _recent_near_coords;;
   assign (with_recent_near_coords (coords ++ [(x, y, t)]));;
   last_angle <- get_attr _curr_angle;;
   _calc_curr_angle;;
   _check_if_new_curve last_angle) s.
Proof.
  intros Ht. apply Qlt_bool_false in Ht.
  unfold update_xyt, bind at 1 2 3 4, lift, validate_func_arg_type,
    validate_func_arg_not_negative.
  simpl. rewrite Ht. reflexivity.
Qed.

(** Arguments that do not pass the validation: a [ValueError], and the
    object is left as it was. *)
Lemma update_xyt_invalid (x y t : pyval) (s : DirectionMonitor) :
  is_number x = false \/ is_number y = false \/ is_number t = false
  \/ (exists q, t = PyNum q /\ q < 0) ->
  update_xyt x y t s = (Raise ValueError, s).
Proof.
  intros H.
  unfold update_xyt, bind, lift, validate_func_arg_type,
    validate_func_arg_not_negative.
  destruct x as [| x | |]; simpl; try reflexivity;
  destruct y as [| y | |]; simpl; try reflexivity;
  destruct t as [| t | |]; simpl; try reflexivity.
  destruct (Qlt_bool t 0) eqn:E; [reflexivity|].
  exfalso. apply Qlt_bool_false in E.
  destruct H as [H | [H | [H | (q & Hq & Hneg)]]]; try discriminate.
  injection Hq as <-. apply (Qlt_not_le _ _ Hneg E).
Qed.

Lemma update_xyt_passes_validation (x y t : pyval) (s : DirectionMonitor) :
  (exists qx qy qt, x = PyNum qx /\ y = PyNum qy /\ t = PyNum qt /\ 0 <= qt)
  \/ update_xyt x y t s = (Raise ValueError, s).
Proof.
  destruct x as [| qx | |]; try (right; apply update_xyt_invalid; auto; fail).
  destruct y as [| qy | |]; try (right; apply update_xyt_invalid; auto; fail).
  destruct t as [| qt | |]; try (right; apply update_xyt_invalid; auto 6; fail).
  destruct (Qlt_le_dec qt 0) as [Hneg | Hpos].
  - right. apply update_xyt_invalid. right. right. right. now exists qt.
  - left. now exists qx, qy, qt.
Qed.


(** *** What each step of [update_xyt] may touch *)

Lemma remove_far_frame (x y : Q) (s : DirectionMonitor) :
  exec (_remove_far_enough_recent_coords x y) s = s
  \/ exists v, exec (_remove_far_enough_recent_coords x y) s
              = with_pre_recent_coord v s.
Proof.
  unfold _remove_far_enough_recent_coords. unfold_py. simpl.
  destruct (_recent_near_coords s) as [| coords]; simpl; [now left|].
  destruct (Nat.eqb (List.length coords) 0); simpl; [now left|].
  destruct (scan_back _ _ _ _ _); simpl; right; eexists; reflexivity.
Qed.

(** [_calc_curr_angle] either raises and leaves the object as it was, or
    completes having assigned [_curr_angle] and nothing else. *)
Lemma calc_curr_angle_cases (s : DirectionMonitor) :
  (exists e, _calc_curr_angle s = (Raise e, s))
  \/ (exists v, _calc_curr_angle s = (Ret tt, with_curr_angle v s)).
Proof.
  unfold _calc_curr_angle. unfold_py. simpl.
  destruct (_pre_recent_coord s) as [| [p|]]; simpl;
    [left; eexists; reflexivity | | right; eexists; reflexivity].
  destruct (_recent_near_coords s) as [| coords]; simpl;
    [left; eexists; reflexivity|].
  destruct (py_index coords (-1)); simpl; [| left; eexists; reflexivity].
  destruct (_zero_angle s); simpl; [left | right]; eexists; reflexivity.
Qed.

Lemma check_if_new_curve_frame (prev : option Q) (s : DirectionMonitor) :
  let s' := exec (_check_if_new_curve prev) s in
  _recent_near_coords s' = _recent_near_coords s
  /\ _curr_angle s' = _curr_angle s
  /\ _pre_recent_coord s' = _pre_recent_coord s
  /\ _angle_units s' = _angle_units s.
Proof.
  unfold _check_if_new_curve. unfold_py. cbv zeta. simpl.
  destruct (_curr_angle s) as [| [c|]] eqn:Ec; simpl; auto.
  destruct prev as [p|]; simpl; auto.
  destruct (turn_direction _ c p) as [d|]; simpl; auto.
  destruct (_curr_curve_direction s) as [| r]; simpl; auto.
  destruct (differs d r); simpl; auto.
  rewrite Ec; simpl.
  destruct (_recent_near_coords s) eqn:El; simpl; [auto|].
  destruct (_n_curves s) eqn:En; simpl; auto.
Qed.


(** *** The shape of an [update_xyt] call

    Either the call raises before [_check_if_new_curve] is reached, and then
    neither the curve state nor [_curr_angle] has changed; or it amounts to
    [_check_if_new_curve] on the object with the sample appended and the
    angle recomputed, given the angle of before the call. *)
Lemma update_xyt_shape (x y t : pyval) (s : DirectionMonitor) :
  (exists e s2, update_xyt x y t s = (Raise e, s2)
     /\ curve_state s2 = curve_state s
     /\ _curr_angle s2 = _curr_angle s)
  \/ (exists last s2 v l, _curr_angle s = Bound last
     /\ curve_state s2 = curve_state s
     /\ _angle_units s2 = _angle_units s
     /\ _curr_angle s2 = Bound v
     /\ _recent_near_coords s2 = Bound l
     /\ update_xyt x y t s = _check_if_new_curve last s2
     /\ exists l0 sample, _recent_near_coords s = Bound l0
          /\ l = l0 ++ [sample]).
Proof.
  destruct (update_xyt_passes_validation x y t s)
    as [(qx & qy & qt & -> & -> & -> & Ht) | Hinv].
  2:{ left. exists ValueError, s. auto. }
  pose proof (update_xyt_valid qx qy qt s Ht) as EU.
  set (U := update_xyt (PyNum qx) (PyNum qy) (PyNum qt) s) in *.
  unfold bind at 1 in EU.
  destruct (_remove_far_enough_recent_coords qx qy s) as [o1 s1] eqn:E1.
  assert (F1 : curve_state s1 = curve_state s /\ _curr_angle s1 = _curr_angle s
               /\ _angle_units s1 = _angle_units s
               /\ _recent_near_coords s1 = _recent_near_coords s).
  { destruct (remove_far_frame qx qy s) as [H | [v H]];
      unfold exec in H; rewrite E1 in H; simpl in H; subst s1; auto. }
  destruct F1 as (F1a & F1b & F1c & F1d).
  destruct o1 as [[] | e]; [| left; exists e, s1; auto].
  unfold bind at 1, get_attr at 1 in EU.
  destruct (_recent_near_coords s1) as [| coords] eqn:El;
    [left; exists AttributeError, s1; auto|].
  unfold bind at 1, assign at 1 in EU.
  set (s2 := with_recent_near_coords (coords ++ [(qx, qy, qt)]) s1) in *.
  assert (F2 : curve_state s2 = curve_state s /\ _curr_angle s2 = _curr_angle s
               /\ _angle_units s2 = _angle_units s) by (subst s2; auto).
  destruct F2 as (F2a & F2b & F2c).
  unfold bind at 1, get_attr at 1 in EU.
  destruct (_curr_angle s2) as [| last] eqn:Ea;
    [left; exists AttributeError, s2; auto|].
  unfold bind at 1 in EU.
  destruct (calc_curr_angle_cases s2) as [[e E3] | [v E3]]; rewrite E3 in EU.
  - left. exists e, s2. auto.
  - right. exists last, (with_curr_angle v s2), v, (coords ++ [(qx, qy, qt)]).
    repeat split; try reflexivity.
    + congruence.
    + exact F2a.
    + exact F2c.
    + exact EU.
    + exists coords, (qx, qy, qt). split; [congruence | reflexivity].
Qed.


(** *** [_check_if_new_curve], case by case *)

Lemma check_if_new_curve_no_turn (s : DirectionMonitor) (c p : Q) :
  _curr_angle s = Bound (Some c) ->
  turn_direction (_max_angle s) c p = None ->
  _check_if_new_curve (Some p) s = (Ret tt, s).
Proof.
  intros Ec Ht. unfold _check_if_new_curve. unfold_py.
  rewrite Ec, Ht. reflexivity.
Qed.

Lemma check_if_new_curve_undefined (s : DirectionMonitor) (c prev : option Q) :
  _curr_angle s = Bound c -> c = None \/ prev = None ->
  _check_if_new_curve prev s = (Ret tt, s).
Proof.
  intros Ec H. unfold _check_if_new_curve. unfold_py. rewrite Ec.
  destruct H as [-> | ->]; [reflexivity | now destruct c].
Qed.

Lemma check_if_new_curve_same_turn (s : DirectionMonitor) (c p : Q) (d : Z)
    (r : option Z) :
  _curr_angle s = Bound (Some c) ->
  turn_direction (_max_angle s) c p = Some d ->
  _curr_curve_direction s = Bound r ->
  differs d r = false ->
  _check_if_new_curve (Some p) s = (Ret tt, s).
Proof.
  intros Ec Ht Er Hd. unfold _check_if_new_curve. unfold_py.
  rewrite Ec, Ht, Er, Hd. reflexivity.
Qed.

Lemma check_if_new_curve_unrecorded (s : DirectionMonitor) (c p : Q) (d : Z) :
  _curr_angle s = Bound (Some c) ->
  turn_direction (_max_angle s) c p = Some d ->
  _curr_curve_direction s = Unbound ->
  _check_if_new_curve (Some p) s = (Raise AttributeError, s).
Proof.
  intros Ec Ht Er. unfold _check_if_new_curve. unfold_py.
  rewrite Ec, Ht, Er. reflexivity.
Qed.

Lemma check_if_new_curve_new_turn (s : DirectionMonitor) (c p : Q) (d : Z)
    (r : option Z) (l : list xyt) (n : Z) :
  _curr_angle s = Bound (Some c) ->
  turn_direction (_max_angle s) c p = Some d ->
  _curr_curve_direction s = Bound r ->
  differs d r = true ->
  _recent_near_coords s = Bound l ->
  _n_curves s = Bound n ->
  _check_if_new_curve (Some p) s =
  (Ret tt,
   with_n_curves (n + 1)%Z
     (with_curr_curve_start_index (Some (Z.of_nat (List.length l) - 1)%Z)
        (with_curr_curve_start_angle (Some c)
           (with_curr_curve_direction (Some d) s)))).
Proof.
  intros Ec Ht Er Hd El En. unfold _check_if_new_curve. unfold_py.
  rewrite Ec, Ht, Er, Hd. simpl. rewrite Ec. simpl. rewrite El. simpl.
  rewrite En. reflexivity.
Qed.

Lemma max_angle_units (s s' : DirectionMonitor) :
  _angle_units s' = _angle_units s -> _max_angle s' = _max_angle s.
Proof. unfold _max_angle. now intros ->. Qed.

Lemma differs_true_neq (d : Z) (r : option Z) :
  differs d r = true <-> r <> Some d.
Proof.
  unfold differs. destruct r as [r|].
  - rewrite negb_true_iff, Z.eqb_neq. split; congruence.
  - split; [discriminate | reflexivity].
Qed.


(** ** Validation (C9) *)

(** C9 — [update_xyt] called with an [x_coord] that is not a number, or
    with a negative [time], raises [ValueError], the typed error of the
    validators, and leaves every attribute of the object as it was. *)
Theorem C9_update_validation_atomic (x y t : pyval) (s : DirectionMonitor) :
  is_number x = false \/ (exists q, t = PyNum q /\ q < 0) ->
  result (update_xyt x y t) s = Raise ValueError
  /\ exec (update_xyt x y t) s = s.
Proof.
  intros H. unfold result, exec.
  rewrite update_xyt_invalid; [split; reflexivity|].
  destruct H as [H | H]; auto.
Qed.

(** ** The turning direction (C5) *)

Lemma check_if_new_curve_records (s : DirectionMonitor) (c p : Q) (d : Z)
    (r : option Z) (l : list xyt) (n : Z) :
  _curr_angle s = Bound (Some c) ->
  turn_direction (_max_angle s) c p = Some d ->
  _curr_curve_direction s = Bound r ->
  _recent_near_coords s = Bound l ->
  _n_curves s = Bound n ->
  _curr_curve_direction (exec (_check_if_new_curve (Some p)) s) = Bound (Some d).
Proof.
  intros Ec Ht Er El En. unfold exec.
  destruct (differs d r) eqn:Hd.
  - rewrite (check_if_new_curve_new_turn s c p d r l n); auto.
  - rewrite (check_if_new_curve_same_turn s c p d r); auto. simpl.
    rewrite Er. destruct r as [r|]; simpl in Hd; [|discriminate].
    apply negb_false_iff, Z.eqb_eq in Hd. now subst.
Qed.

(** C5 — with delta = (curr - prev) mod max_angle, the direction computed
    by [_check_if_new_curve], and recorded by it, is +1 when
    0 < delta <= max_angle/2 and -1 when delta > max_angle/2; in degrees a
    delta of 180 gives +1 and a delta of 181 gives -1. *)
Theorem C5_smaller_arc_convention (s : DirectionMonitor) (curr prev : Q)
    (r : option Z) (l : list xyt) (n : Z) :
  _curr_angle s = Bound (Some curr) ->
  _curr_curve_direction s = Bound r ->
  _recent_near_coords s = Bound l ->
  _n_curves s = Bound n ->
  0 < _max_angle s ->
  let max_angle := _max_angle s in
  let delta := py_mod (curr - prev) max_angle in
  let s' := exec (_check_if_new_curve (Some prev)) s in
  (0 < delta -> delta <= max_angle / 2 ->
     turn_direction max_angle curr prev = Some 1%Z
     /\ _curr_curve_direction s' = Bound (Some 1%Z))
  /\ (max_angle / 2 < delta ->
     turn_direction max_angle curr prev = Some (-1)%Z
     /\ _curr_curve_direction s' = Bound (Some (-1)%Z))
  /\ (_angle_units s = Degrees -> delta == 180 ->
     turn_direction max_angle curr prev = Some 1%Z
     /\ _curr_curve_direction s' = Bound (Some 1%Z))
  /\ (_angle_units s = Degrees -> delta == 181 ->
     turn_direction max_angle curr prev = Some (-1)%Z
     /\ _curr_curve_direction s' = Bound (Some (-1)%Z)).
Proof.
  intros Ec Er El En Hmax max_angle delta s'.
  destruct (turn_direction_spec max_angle curr prev) as (_ & Hpos & Hneg).
  fold delta in Hpos, Hneg.
  assert (Hup : 0 < delta -> delta <= max_angle / 2 ->
     turn_direction max_angle curr prev = Some 1%Z
     /\ _curr_curve_direction s' = Bound (Some 1%Z)).
  { intros H0 Hle.
    assert (Ht : turn_direction max_angle curr prev = Some 1%Z).
    { apply Hpos; [|exact Hle]. intro E. rewrite E in H0. discriminate. }
    split; [exact Ht|].
    apply (check_if_new_curve_records s curr prev 1%Z r l n); auto. }
  assert (Hdown : max_angle / 2 < delta ->
     turn_direction max_angle curr prev = Some (-1)%Z
     /\ _curr_curve_direction s' = Bound (Some (-1)%Z)).
  { intros Hlt.
    assert (Ht : turn_direction max_angle curr prev = Some (-1)%Z).
    { apply Hneg; [|exact Hlt]. intro E. rewrite E in Hlt.
      clear - Hmax Hlt. subst max_angle. lra_half. }
    split; [exact Ht|].
    apply (check_if_new_curve_records s curr prev (-1)%Z r l n); auto. }
  split; [exact Hup | split; [exact Hdown | split]].
  - intros Hu Hd. assert (E : max_angle == 360)
      by (subst max_angle; unfold _max_angle; rewrite Hu; reflexivity).
    apply Hup; clear - E Hd; clearbody delta max_angle; lra_half.
  - intros Hu Hd. assert (E : max_angle == 360)
      by (subst max_angle; unfold _max_angle; rewrite Hu; reflexivity).
    apply Hdown; clear - E Hd; clearbody delta max_angle; lra_half.
Qed.


(** ** The zero-angle shift (C6) *)

Lemma py_mod_compat (a a' m m' : Q) :
  a == a' -> m == m' -> py_mod a m == py_mod a' m'.
Proof.
  intros Ha Hm. unfold py_mod.
  assert (Ef : Qfloor (a / m) = Qfloor (a' / m'))
    by (apply Qfloor_comp; rewrite Ha, Hm; reflexivity).
  rewrite Ef, Ha, Hm. reflexivity.
Qed.

Lemma shift_zero_compat (z z' m m' a a' : Q) :
  z == z' -> m == m' -> a == a' -> shift_zero z m a == shift_zero z' m' a'.
Proof.
  intros Hz Hm Ha. unfold shift_zero.
  assert (Eb : Qeq_bool z 0 = Qeq_bool z' 0)
    by (apply eq_true_iff_eq; rewrite !Qeq_bool_iff, Hz; reflexivity).
  assert (Ep : py_mod (a - z) m == py_mod (a' - z') m')
    by (apply py_mod_compat; [rewrite Ha, Hz; reflexivity | exact Hm]).
  assert (Eg : Qgt_bool (py_mod (a - z) m) (m / 2)
               = Qgt_bool (py_mod (a' - z') m') (m' / 2))
    by (apply eq_true_iff_eq; rewrite !Qgt_bool_true, Ep, Hm; reflexivity).
  rewrite Eb. cbv zeta. rewrite Eg. clear Eb Eg.
  destruct (Qeq_bool z' 0); cbn [negb]; [exact Ha|].
  destruct (Qgt_bool (py_mod (a' - z') m') (m' / 2)); [|exact Ep].
  revert Ep. generalize (py_mod (a - z) m) (py_mod (a' - z') m').
  intros u u' Ep. lra.
Qed.

Lemma shift_zero_range (z m a : Q) :
  0 < m -> ~ z == 0 ->
  - (m / 2) < shift_zero z m a /\ shift_zero z m a <= m / 2.
Proof.
  intros Hm Hz. unfold shift_zero.
  apply Qeq_bool_false in Hz. rewrite Hz. simpl.
  destruct (py_mod_range (a - z) m Hm) as [Hlo Hhi].
  destruct (Qgt_bool (py_mod (a - z) m) (m / 2)) eqn:E.
  - apply Qgt_bool_true in E. split; lra_half.
  - apply Qgt_bool_false in E. split; lra_half.
Qed.

Lemma shift_zero_congruent (z m a : Q) :
  ~ z == 0 -> exists k : Z, shift_zero z m a == a - z + inject_Z k * m.
Proof.
  intros Hz. unfold shift_zero.
  apply Qeq_bool_false in Hz. rewrite Hz. simpl.
  pose proof (py_mod_congruent (a - z) m) as Hc.
  set (K := Qfloor ((a - z) / m)) in *.
  destruct (Qgt_bool (py_mod (a - z) m) (m / 2)).
  - exists (- K - 1)%Z. unfold Z.sub.
    rewrite inject_Z_plus, inject_Z_opp, Hc. change (inject_Z (- (1))) with (- (1)).
    ring.
  - exists (- K)%Z. rewrite inject_Z_opp, Hc. ring.
Qed.

Lemma py_index_last {A : Type} (l : list A) (a : A) :
  py_index (l ++ [a]) (-1) = Ret a.
Proof.
  unfold py_index. rewrite length_app. simpl List.length.
  change (-1 <? 0)%Z with true. cbv iota.
  replace (Z.of_nat (List.length l + 1) + -1)%Z with (Z.of_nat (List.length l)) by lia.
  rewrite Nat2Z.id.
  replace ((0 <=? Z.of_nat (List.length l))%Z) with true
    by (symmetry; apply Z.leb_le; lia).
  replace ((Z.of_nat (List.length l) <? Z.of_nat (List.length l + 1))%Z) with true
    by (symmetry; apply Z.ltb_lt; lia).
  simpl. rewrite nth_error_app2 by lia. rewrite Nat.sub_diag. reflexivity.
Qed.

(** [_calc_curr_angle] when there is a reference sample. *)
Lemma calc_curr_angle_defined (s : DirectionMonitor) (p : xy) (l : list xyt)
    (last : xyt) (z : Q) :
  _pre_recent_coord s = Bound (Some p) ->
  _recent_near_coords s = Bound (l ++ [last]) ->
  _zero_angle s = Bound z ->
  _calc_curr_angle s =
  (Ret tt,
   with_curr_angle
     (Some (shift_zero z (_max_angle s)
              (to_units (_angle_units s) (get_angle p last)))) s).
Proof.
  intros Ep El Ez. unfold _calc_curr_angle. unfold_py.
  rewrite Ep, El, py_index_last, Ez. reflexivity.
Qed.

(** C6 — when [zero_angle] is not 0 the angle that [_calc_curr_angle]
    stores is the raw angle minus [zero_angle], reduced modulo max_angle
    into (-max_angle/2, max_angle/2]; in degrees with [zero_angle] 90 a raw
    angle of 90 is stored as 0 and a raw angle of 0 as -90. *)
Theorem C6_zero_angle_offset (s : DirectionMonitor) (p : xy) (l : list xyt)
    (last : xyt) (z : Q) :
  _pre_recent_coord s = Bound (Some p) ->
  _recent_near_coords s = Bound (l ++ [last]) ->
  _zero_angle s = Bound z ->
  ~ z == 0 ->
  0 < _max_angle s ->
  let max_angle := _max_angle s in
  let raw := to_units (_angle_units s) (get_angle p last) in
  exists reported,
    _calc_curr_angle s = (Ret tt, with_curr_angle (Some reported) s)
    /\ - (max_angle / 2) < reported /\ reported <= max_angle / 2
    /\ (exists k : Z, reported == raw - z + inject_Z k * max_angle)
    /\ (_angle_units s = Degrees -> z == 90 -> raw == 90 -> reported == 0)
    /\ (_angle_units s = Degrees -> z == 90 -> raw == 0 -> reported == -90).
Proof.
  intros Ep El Ez Hz Hmax max_angle raw.
  exists (shift_zero z max_angle raw).
  split; [apply (calc_curr_angle_defined s p l last z Ep El Ez)|].
  destruct (shift_zero_range z max_angle raw Hmax Hz) as [Hlo Hhi].
  repeat split; try assumption.
  - apply shift_zero_congruent, Hz.
  - intros Hu Ez90 Eraw.
    assert (Em : max_angle == 360)
      by (subst max_angle; unfold _max_angle; rewrite Hu; reflexivity).
    rewrite (shift_zero_compat z 90 max_angle 360 raw 90 Ez90 Em Eraw).
    vm_compute. reflexivity.
  - intros Hu Ez90 Eraw.
    assert (Em : max_angle == 360)
      by (subst max_angle; unfold _max_angle; rewrite Hu; reflexivity).
    rewrite (shift_zero_compat z 90 max_angle 360 raw 0 Ez90 Em Eraw).
    vm_compute. reflexivity.
Qed.


(** ** Curves (C2, C7, C8) *)

(** C2, as the code has it — on the first update of a session that computes
    a turn (both angles defined, their difference not 0 modulo max_angle)
    while no direction is recorded, the direction is recorded, the curve
    starts at the new angle and at the newest sample, and [_n_curves] is
    incremented: the first turn opens curve number one. *)
Theorem C2_first_turn_opens_first_curve (s : DirectionMonitor) (c p : Q)
    (d : Z) (l : list xyt) (n : Z) :
  _curr_angle s = Bound (Some c) ->
  turn_direction (_max_angle s) c p = Some d ->
  _curr_curve_direction s = Bound None ->
  _recent_near_coords s = Bound l ->
  _n_curves s = Bound n ->
  let s' := exec (_check_if_new_curve (Some p)) s in
  _curr_curve_direction s' = Bound (Some d)
  /\ _curr_curve_start_angle s' = Bound (Some c)
  /\ _curr_curve_start_index s' = Bound (Some (Z.of_nat (List.length l) - 1)%Z)
  /\ _n_curves s' = Bound (n + 1)%Z.
Proof.
  intros Ec Ht Er El En s'. subst s'. unfold exec.
  rewrite (check_if_new_curve_new_turn s c p d None l n Ec Ht Er eq_refl El En).
  simpl. auto.
Qed.

(** The same at the level of [update_xyt]. *)
Lemma update_xyt_first_turn (x y t : pyval) (s : DirectionMonitor) (c p : Q)
    (d : Z) (n : Z) :
  let s' := exec (update_xyt x y t) s in
  _curr_angle s = Bound (Some p) ->
  _curr_angle s' = Bound (Some c) ->
  turn_direction (_max_angle s) c p = Some d ->
  _curr_curve_direction s = Bound None ->
  _n_curves s = Bound n ->
  _curr_curve_direction s' = Bound (Some d) /\ _n_curves s' = Bound (n + 1)%Z.
Proof.
  intros s' Ep Ec Ht Er En. subst s'. unfold exec in *.
  destruct (update_xyt_shape x y t s)
    as [(e & s2 & EU & Hcs & Hca)
       | (last & s2 & v & l & Hlast & Hcs & Hu & Hv & Hl & EU & Hwin)];
    rewrite EU in *; simpl in Ec.
  - rewrite Hca, Ep in Ec. injection Ec as <-.
    rewrite turn_direction_same in Ht. discriminate.
  - rewrite Ep in Hlast. injection Hlast as <-.
    destruct (check_if_new_curve_frame (Some p) s2) as (_ & Hca & _).
    cbv zeta in Hca. unfold exec in Hca. rewrite Hca, Hv in Ec.
    injection Ec as ->.
    unfold curve_state in Hcs. injection Hcs as Hd _ _ Hn.
    rewrite <- (max_angle_units s s2 Hu) in Ht.
    rewrite (check_if_new_curve_new_turn s2 c p d None l n); simpl; auto;
      congruence.
Qed.


(** C7 — an update whose angle is, modulo max_angle, the angle of the
    update before makes no decision: [_n_curves], [_curr_curve_direction],
    [_curr_curve_start_angle] and [_curr_curve_start_index] keep their
    values. *)
Theorem C7_zero_delta_no_decision (x y t : pyval) (s : DirectionMonitor)
    (p c : Q) :
  let s' := exec (update_xyt x y t) s in
  _curr_angle s = Bound (Some p) ->
  _curr_angle s' = Bound (Some c) ->
  py_mod (c - p) (_max_angle s) == 0 ->
  _n_curves s' = _n_curves s
  /\ _curr_curve_direction s' = _curr_curve_direction s
  /\ _curr_curve_start_angle s' = _curr_curve_start_angle s
  /\ _curr_curve_start_index s' = _curr_curve_start_index s.
Proof.
  intros s' Ep Ec Hz. subst s'. unfold exec in *.
  assert (Hs : forall s2 : DirectionMonitor, curve_state s2 = curve_state s ->
     _n_curves s2 = _n_curves s
     /\ _curr_curve_direction s2 = _curr_curve_direction s
     /\ _curr_curve_start_angle s2 = _curr_curve_start_angle s
     /\ _curr_curve_start_index s2 = _curr_curve_start_index s).
  { unfold curve_state. intros s2 H. injection H as -> -> -> ->. auto. }
  destruct (update_xyt_shape x y t s)
    as [(e & s2 & EU & Hcs & Hca)
       | (last & s2 & v & l & Hlast & Hcs & Hu & Hv & Hl & EU & Hwin)];
    rewrite EU in *; simpl in Ec.
  - simpl. apply Hs, Hcs.
  - rewrite Ep in Hlast. injection Hlast as <-.
    destruct (check_if_new_curve_frame (Some p) s2) as (_ & Hca & _).
    cbv zeta in Hca. unfold exec in Hca. rewrite Hca, Hv in Ec.
    injection Ec as ->.
    rewrite (check_if_new_curve_no_turn s2 c p Hv); [apply Hs, Hcs|].
    rewrite (max_angle_units s s2 Hu).
    apply (proj1 (turn_direction_spec (_max_angle s) c p)), Hz.
Qed.

(** What one call of [_check_if_new_curve] does to the count. *)
Lemma check_if_new_curve_count (s : DirectionMonitor) (prev v : option Q)
    (l : list xyt) (n : Z) :
  _curr_angle s = Bound v ->
  _recent_near_coords s = Bound l ->
  _n_curves s = Bound n ->
  let s' := exec (_check_if_new_curve prev) s in
  let turned :=
    exists p c d r, prev = Some p /\ v = Some c
      /\ turn_direction (_max_angle s) c p = Some d
      /\ _curr_curve_direction s = Bound r /\ r <> Some d in
  (_n_curves s' = Bound (n + 1)%Z /\ turned)
  \/ (_n_curves s' = Bound n /\ ~ turned).
Proof.
  intros Ev El En s' turned. subst s' turned. unfold exec.
  destruct v as [c|];
    [| right; rewrite (check_if_new_curve_undefined s None prev Ev); auto;
       split; [exact En | intros (p & c & d & r & _ & H & _); discriminate]].
  destruct prev as [p|];
    [| right; rewrite (check_if_new_curve_undefined s (Some c) None Ev); auto;
       split; [exact En | intros (p & c' & d & r & H & _); discriminate]].
  destruct (turn_direction (_max_angle s) c p) as [d|] eqn:Ht.
  2:{ right. rewrite (check_if_new_curve_no_turn s c p Ev Ht).
      split; [exact En|].
      intros (p' & c' & d & r & Hp & Hc & Ht' & _).
      injection Hp as <-. injection Hc as <-. congruence. }
  destruct (_curr_curve_direction s) as [| r] eqn:Er.
  { right. rewrite (check_if_new_curve_unrecorded s c p d Ev Ht Er).
    split; [exact En|].
    intros (p' & c' & d' & r & _ & _ & _ & H & _). discriminate. }
  destruct (differs d r) eqn:Hd.
  - left. rewrite (check_if_new_curve_new_turn s c p d r l n Ev Ht Er Hd El En).
    split; [reflexivity|].
    exists p, c, d, r. repeat split; auto. now apply differs_true_neq.
  - right. rewrite (check_if_new_curve_same_turn s c p d r Ev Ht Er Hd).
    split; [exact En|].
    intros (p' & c' & d' & r' & Hp & Hc & Ht' & Hr & Hne).
    injection Hp as <-. injection Hc as <-. injection Hr as <-.
    rewrite Ht in Ht'. injection Ht' as <-.
    apply differs_true_neq in Hne. congruence.
Qed.


(** One update and the count: it stays or goes up by one, and it goes up
    exactly when the update computed a turn that is not the recorded one. *)
Lemma update_xyt_count (x y t : pyval) (s : DirectionMonitor) (n : Z) :
  _n_curves s = Bound n ->
  let s' := exec (update_xyt x y t) s in
  exists n', _n_curves s' = Bound n'
    /\ (n <= n' <= n + 1)%Z
    /\ (n' = (n + 1)%Z <->
        exists p c d r,
          _curr_angle s = Bound (Some p) /\ _curr_angle s' = Bound (Some c)
          /\ turn_direction (_max_angle s) c p = Some d
          /\ _curr_curve_direction s = Bound r /\ r <> Some d).
Proof.
  intros En s'. subst s'. unfold exec.
  destruct (update_xyt_shape x y t s)
    as [(e & s2 & EU & Hcs & Hca)
       | (last & s2 & v & l & Hlast & Hcs & Hu & Hv & Hl & EU & Hwin)];
    rewrite EU; unfold curve_state in Hcs; injection Hcs as Hd _ _ Hn.
  - simpl. exists n. split; [congruence|]. split; [lia|].
    split; [lia|].
    intros (p & c & d & r & Hp & Hc & Ht & _). exfalso.
    rewrite Hca, Hp in Hc. injection Hc as <-.
    rewrite turn_direction_same in Ht. discriminate.
  - assert (En2 : _n_curves s2 = Bound n) by congruence.
    destruct (check_if_new_curve_frame last s2) as (_ & Hca & _).
    cbv zeta in Hca. unfold exec in Hca.
    destruct (check_if_new_curve_count s2 last v l n Hv Hl En2)
      as [[Hn' Ht] | [Hn' Ht]]; unfold exec in Hn'.
    + exists (n + 1)%Z. split; [exact Hn'|]. split; [lia|].
      split; [intros _ | reflexivity].
      destruct Ht as (p & c & d & r & -> & -> & Ht & Hr & Hne).
      exists p, c, d, r. rewrite Hca.
      rewrite <- (max_angle_units s s2 Hu). repeat split; auto; congruence.
    + exists n. split; [exact Hn'|]. split; [lia|].
      split; [lia|]. intros (p & c & d & r & Hp & Hc & Ht' & Hr & Hne).
      exfalso. apply Ht. exists p, c, d, r.
      rewrite Hca, Hv in Hc. rewrite (max_angle_units s s2 Hu).
      repeat split; auto; congruence.
Qed.

(** C8 — between two resets [_n_curves] never goes down: over any sequence
    of updates it is at least what it was, each update adds 0 or 1 to it,
    and an update adds 1 exactly when the turning direction it computes
    differs from the recorded [_curr_curve_direction]. *)
Theorem C8_n_curves_monotone (s : DirectionMonitor) (n : Z) :
  _n_curves s = Bound n ->
  (forall x y t,
     let s' := exec (update_xyt x y t) s in
     exists n', _n_curves s' = Bound n'
       /\ (n <= n' <= n + 1)%Z
       /\ (n' = (n + 1)%Z <->
           exists p c d r,
             _curr_angle s = Bound (Some p) /\ _curr_angle s' = Bound (Some c)
             /\ turn_direction (_max_angle s) c p = Some d
             /\ _curr_curve_direction s = Bound r /\ r <> Some d))
  /\ (forall samples,
        exists n', _n_curves (run_updates samples s) = Bound n' /\ (n <= n')%Z).
Proof.
  intros En. split.
  - intros x y t. apply update_xyt_count, En.
  - intros samples. revert s n En.
    induction samples as [| [[x y] t] rest IH]; intros s n En; simpl.
    + exists n. split; [exact En | lia].
    + destruct (update_xyt_count x y t s n En) as (n1 & En1 & Hle & _).
      destruct (IH _ n1 En1) as (n' & En' & Hle').
      exists n'. split; [exact En' | lia].
Qed.


(** ** The window (C10) *)

Lemma remove_far_bound (x y : Q) (s : DirectionMonitor) (l : list xyt) :
  _recent_near_coords s = Bound l ->
  exists s1, _remove_far_enough_recent_coords x y s = (Ret tt, s1)
    /\ _recent_near_coords s1 = Bound l
    /\ _curr_angle s1 = _curr_angle s.
Proof.
  intros El. unfold _remove_far_enough_recent_coords. unfold_py. rewrite El.
  destruct (Nat.eqb (List.length l) 0); [exists s; auto|].
  simpl. destruct (scan_back _ _ _ _ _); simpl; eexists; repeat split; exact El.
Qed.

Lemma update_xyt_window_valid (x y t : Q) (s : DirectionMonitor) (l : list xyt) :
  0 <= t ->
  _recent_near_coords s = Bound l ->
  _recent_near_coords (exec (update_xyt (PyNum x) (PyNum y) (PyNum t)) s)
  = Bound (l ++ [(x, y, t)]).
Proof.
  intros Ht El. unfold exec. rewrite (update_xyt_valid x y t s Ht).
  destruct (remove_far_bound x y s l El) as (s1 & E1 & El1 & _).
  unfold bind at 1. rewrite E1.
  unfold bind at 1, get_attr at 1. rewrite El1.
  unfold bind at 1, assign at 1.
  set (s2 := with_recent_near_coords (l ++ [(x, y, t)]) s1).
  unfold bind at 1, get_attr at 1.
  destruct (_curr_angle s2) as [| last]; [reflexivity|].
  unfold bind at 1.
  destruct (calc_curr_angle_cases s2) as [[e E3] | [v E3]]; rewrite E3;
    [reflexivity|].
  destruct (check_if_new_curve_frame last (with_curr_angle v s2)) as (H & _).
  cbv zeta in H. unfold exec in H. rewrite H. reflexivity.
Qed.

Lemma update_xyt_window (x y t : pyval) (s : DirectionMonitor) (l : list xyt) :
  _recent_near_coords s = Bound l ->
  exists l', _recent_near_coords (exec (update_xyt x y t) s) = Bound (l ++ l').
Proof.
  intros El.
  destruct (update_xyt_passes_validation x y t s)
    as [(qx & qy & qt & -> & -> & -> & Ht) | Hinv].
  - eexists. apply update_xyt_window_valid; assumption.
  - exists []. unfold exec. rewrite Hinv, app_nil_r. exact El.
Qed.

Lemma run_updates_window (samples : list (pyval * pyval * pyval))
    (s : DirectionMonitor) (l : list xyt) :
  _recent_near_coords s = Bound l ->
  exists l', _recent_near_coords (run_updates samples s) = Bound (l ++ l').
Proof.
  revert s l. induction samples as [| [[x y] t] rest IH]; intros s l El; simpl.
  - exists []. now rewrite app_nil_r.
  - destruct (update_xyt_window x y t s l El) as (l1 & El1).
    destruct (IH _ _ El1) as (l2 & El2).
    exists (l1 ++ l2). now rewrite app_assoc.
Qed.

Lemma py_index_app {A : Type} (l l' : list A) (i : Z) (v : A) :
  (0 <= i)%Z -> py_index l i = Ret v -> py_index (l ++ l') i = Ret v.
Proof.
  unfold py_index. intros Hi.
  replace (i <? 0)%Z with false by (symmetry; apply Z.ltb_ge; lia).
  replace (0 <=? i)%Z with true by (symmetry; apply Z.leb_le; lia).
  simpl.
  destruct (i <? Z.of_nat (List.length l))%Z eqn:Hlt; [|discriminate].
  apply Z.ltb_lt in Hlt.
  replace (i <? Z.of_nat (List.length (l ++ l')))%Z with true
    by (symmetry; apply Z.ltb_lt; rewrite length_app; lia).
  rewrite nth_error_app1 by lia. auto.
Qed.

Lemma py_index_in_range {A : Type} (l : list A) (i : Z) :
  (0 <= i < Z.of_nat (List.length l))%Z -> exists v, py_index l i = Ret v.
Proof.
  intros Hi. unfold py_index.
  replace (i <? 0)%Z with false by (symmetry; apply Z.ltb_ge; lia).
  replace (0 <=? i)%Z with true by (symmetry; apply Z.leb_le; lia).
  replace (i <? Z.of_nat (List.length l))%Z with true
    by (symmetry; apply Z.ltb_lt; lia).
  simpl. destruct (nth_error l (Z.to_nat i)) eqn:E; [eauto|].
  apply nth_error_None in E. lia.
Qed.

Lemma curve_start_valid_update (x y t : pyval) (s : DirectionMonitor) :
  curve_start_valid s -> curve_start_valid (exec (update_xyt x y t) s).
Proof.
  intros Hs i Hi. unfold exec in *.
  destruct (update_xyt_shape x y t s)
    as [(e & s2 & EU & Hcs & Hca)
       | (last & s2 & v & l & Hlast & Hcs & Hu & Hv & Hl & EU & Hwin)].
  - assert (EU' := EU). unfold curve_state in Hcs. injection Hcs as _ _ Hidx _.
    rewrite EU in Hi. simpl in Hi. rewrite Hidx in Hi.
    destruct (Hs i Hi) as (l & El & Hr).
    destruct (update_xyt_window x y t s l El) as (l' & El').
    unfold exec in El'. exists (l ++ l'). split; [exact El'|].
    rewrite length_app. lia.
  - destruct Hwin as (l0 & sample & El0 & ->).
    destruct (check_if_new_curve_frame last s2) as (Hw & _).
    cbv zeta in Hw. unfold exec in Hw. rewrite EU in *.
    exists (l0 ++ [sample]). split; [congruence|].
    rewrite length_app. simpl List.length.
    unfold curve_state in Hcs. injection Hcs as _ _ Hidx _.
    assert (Hcase : _curr_curve_start_index (snd (_check_if_new_curve last s2))
                    = _curr_curve_start_index s2
                 \/ _curr_curve_start_index (snd (_check_if_new_curve last s2))
                    = Bound (Some (Z.of_nat (List.length (l0 ++ [sample])) - 1)%Z)).
    { clear - Hv Hl. unfold _check_if_new_curve. unfold_py. rewrite Hv.
      destruct v as [c|]; [|now left].
      destruct last as [p|]; [|now left].
      destruct (turn_direction _ c p) as [d|]; [|now left].
      destruct (_curr_curve_direction s2) as [| r]; [now left|].
      destruct (differs d r); [|now left]. simpl. rewrite Hv. simpl.
      rewrite Hl. simpl. destruct (_n_curves s2); simpl; now right. }
    destruct Hcase as [Hsame | Hnew]; rewrite Hi in *.
    + symmetry in Hsame. rewrite Hidx in Hsame.
      destruct (Hs i Hsame) as (l & El & Hr).
      assert (l = l0) by congruence. subst l. lia.
    + injection Hnew as ->. rewrite length_app. simpl List.length. lia.
Qed.


Lemma curve_start_valid_run (samples : list (pyval * pyval * pyval))
    (s : DirectionMonitor) :
  curve_start_valid s -> curve_start_valid (run_updates samples s).
Proof.
  revert s. induction samples as [| [[x y] t] rest IH]; intros s Hs; simpl.
  - exact Hs.
  - apply IH, curve_start_valid_update, Hs.
Qed.

Lemma curve_start_valid_reset (s : DirectionMonitor) :
  curve_start_valid (exec reset s).
Proof. intros i Hi. discriminate Hi. Qed.

(** C10 — the window only grows between resets: an update with valid
    arguments appends exactly its sample, no sequence of updates removes or
    changes a stored sample, so a sample read at a recorded curve start is
    read again, unchanged, from every later state with that curve start;
    every recorded curve start stays inside the window; and
    [_remove_far_enough_recent_coords] assigns nothing but the reference
    [_pre_recent_coord]. *)
Theorem C10_window_append_only (s : DirectionMonitor) (l : list xyt) :
  _recent_near_coords s = Bound l ->
  (forall x y t, 0 <= t ->
     _recent_near_coords (exec (update_xyt (PyNum x) (PyNum y) (PyNum t)) s)
     = Bound (l ++ [(x, y, t)]))
  /\ (forall samples, exists l',
        _recent_near_coords (run_updates samples s) = Bound (l ++ l'))
  /\ (forall samples i v, (0 <= i)%Z -> py_index l i = Ret v ->
        _curr_curve_start_index (run_updates samples s) = Bound (Some i) ->
        result curr_curve_start_xyt (run_updates samples s) = Ret (Some v))
  /\ (curve_start_valid s -> forall samples i,
        _curr_curve_start_index (run_updates samples s) = Bound (Some i) ->
        exists v, result curr_curve_start_xyt (run_updates samples s)
                  = Ret (Some v))
  /\ (forall x y,
        exec (_remove_far_enough_recent_coords x y) s = s
        \/ exists v, exec (_remove_far_enough_recent_coords x y) s
                     = with_pre_recent_coord v s).
Proof.
  intros El. repeat split.
  - intros x y t Ht. apply update_xyt_window_valid; assumption.
  - intros samples. apply run_updates_window, El.
  - intros samples i v Hi Hv Hidx.
    destruct (run_updates_window samples s l El) as (l' & El').
    unfold result, curr_curve_start_xyt. unfold_py.
    rewrite Hidx, El', (py_index_app l l' i v Hi Hv). reflexivity.
  - intros Hs samples i Hidx.
    destruct (curve_start_valid_run samples s Hs i Hidx) as (l' & El' & Hr).
    destruct (py_index_in_range l' i Hr) as (v & Hv).
    exists v. unfold result, curr_curve_start_xyt. unfold_py.
    rewrite Hidx, El', Hv. reflexivity.
  - intros x y. apply remove_far_frame.
Qed.


(** ** Construction and reset (C3, C4) *)

Lemma init_unbound (units_per_mm min_distance angle_units : pyval)
    (dm : DirectionMonitor) :
  __init__ units_per_mm min_distance angle_units = Ret dm ->
  exists u d a,
    dm = mkDM log_none u d a Unbound Unbound Unbound Unbound Unbound
              Unbound Unbound Unbound Unbound.
Proof.
  unfold __init__. intros H.
  repeat match type of H with
         | match ?o with _ => _ end = _ => destruct o; try discriminate
         end.
  injection H as <-. eauto.
Qed.

Lemma fresh_monitor_init :
  __init__ (PyNum 1) (PyNum 0) (PyUnits Degrees) = Ret fresh_monitor.
Proof. reflexivity. Qed.

(** [update_xyt] on an object whose [_curr_angle] is not bound. *)
Lemma update_xyt_curr_angle_unbound (x y t : pyval) (s : DirectionMonitor) :
  _curr_angle s = Unbound ->
  _curr_angle (exec (update_xyt x y t) s) = Unbound
  /\ exists e, result (update_xyt x y t) s = Raise e.
Proof.
  intros Hu. unfold exec, result.
  destruct (update_xyt_shape x y t s)
    as [(e & s2 & EU & Hcs & Hca)
       | (last & s2 & v & l & Hlast & _)]; [|congruence].
  rewrite EU. simpl. split; [congruence | eauto].
Qed.

Lemma run_updates_curr_angle_unbound (samples : list (pyval * pyval * pyval))
    (s : DirectionMonitor) :
  _curr_angle s = Unbound -> _curr_angle (run_updates samples s) = Unbound.
Proof.
  revert s. induction samples as [| [[x y] t] rest IH]; intros s Hu; simpl.
  - exact Hu.
  - apply IH. apply update_xyt_curr_angle_unbound, Hu.
Qed.

(** After [reset()], an update with valid arguments gets as far as reading
    [_curr_angle]. *)
Lemma update_xyt_after_reset (x y t : Q) (s : DirectionMonitor) :
  0 <= t -> _curr_angle s = Unbound ->
  update_xyt (PyNum x) (PyNum y) (PyNum t) (exec reset s)
  = (Raise AttributeError,
     with_recent_near_coords [(x, y, t)] (exec reset s)).
Proof.
  intros Ht Hu. rewrite (update_xyt_valid x y t _ Ht).
  unfold _remove_far_enough_recent_coords. unfold_py. simpl.
  rewrite Hu. reflexivity.
Qed.

(** C4 — on an object as the constructor leaves it, the first [update_xyt]
    with numbers and a time that is not negative raises [AttributeError]:
    the constructor binds neither the window nor [_zero_angle]; [reset()]
    binds [_last_angle] and not [_curr_angle], which [update_xyt] reads
    before it recomputes it, so the call raises after [reset()] as well. *)
Theorem C4_first_update_raises_AttributeError
    (units_per_mm min_distance angle_units : pyval) (dm : DirectionMonitor)
    (x y t : Q) :
  __init__ units_per_mm min_distance angle_units = Ret dm ->
  0 <= t ->
  _recent_near_coords dm = Unbound
  /\ _zero_angle dm = Unbound
  /\ result (update_xyt (PyNum x) (PyNum y) (PyNum t)) dm = Raise AttributeError
  /\ _last_angle (exec reset dm) = Bound None
  /\ _curr_angle (exec reset dm) = Unbound
  /\ result (update_xyt (PyNum x) (PyNum y) (PyNum t)) (exec reset dm)
     = Raise AttributeError.
Proof.
  intros Hinit Ht.
  destruct (init_unbound _ _ _ _ Hinit) as (u & d & a & ->).
  repeat split.
  - unfold result. rewrite (update_xyt_valid x y t _ Ht). reflexivity.
  - unfold result. rewrite (update_xyt_after_reset x y t _ Ht); reflexivity.
Qed.

(** C3, at the failing input — [reset()] is idempotent, always completes
    and clears the curve attributes, but it does not assign [_curr_angle]:
    the attribute is as it was before the call. On a new object the
    [curr_angle] accessor raises [AttributeError] after [reset()], and on an
    object holding an angle it still returns that angle. *)
Theorem C3_reset_keeps_curr_angle :
  (forall s, exec reset (exec reset s) = exec reset s)
  /\ (forall s, result reset s = Ret tt)
  /\ (forall s,
        result curr_curve_direction (exec reset s) = Ret None
        /\ result curr_curve_start_angle (exec reset s) = Ret None
        /\ result curr_curve_start_xyt (exec reset s) = Ret None
        /\ result n_curves (exec reset s) = Ret 0%Z)
  /\ (forall s, _curr_angle (exec reset s) = _curr_angle s)
  /\ result curr_angle (exec reset fresh_monitor) = Raise AttributeError
  /\ (forall s a,
        result curr_angle (exec reset (with_curr_angle (Some a) s))
        = Ret (Some a)).
Proof. repeat split. Qed.

(** ** The reference sample (C1) *)

(** C1, at the failing input — in a session opened by [reset()] every
    [update_xyt] raises [AttributeError] and so does the [curr_angle]
    accessor, whatever the samples. With [_curr_angle] and [_zero_angle]
    bound beforehand the updates complete, but the second sample of a
    session never gets a reference, the scan leaving out index 0: after
    two samples 10 units apart, with [min_distance] 0, [curr_angle] is
    still [None]. *)
Theorem C1_separated_samples_leave_angle_undefined :
  (forall samples,
     result curr_angle (run_updates samples reset_monitor)
     = Raise AttributeError)
  /\ result (update_xyt (PyNum 0) (PyNum 0) (PyNum 0)) reset_monitor
     = Raise AttributeError
  /\ result (update_xyt (PyNum 10) (PyNum 0) (PyNum 100))
            (exec (update_xyt (PyNum 0) (PyNum 0) (PyNum 0)) reset_monitor)
     = Raise AttributeError
  /\ (forall s c0 x y,
        _pre_recent_coord
          (exec (_remove_far_enough_recent_coords x y)
                (with_recent_near_coords [c0] s))
        = Bound None)
  /\ _pre_recent_coord (run_updates two_far_samples primed_monitor) = Bound None
  /\ result curr_angle (run_updates two_far_samples primed_monitor) = Ret None.
Proof.
  repeat split.
  intros samples. unfold result, curr_angle, get_attr.
  now rewrite run_updates_curr_angle_unbound.
Qed.

(** ** Whole turns *)

Lemma Qfloor_unique (x : Q) (n : Z) :
  inject_Z n <= x -> x < inject_Z (n + 1) -> Qfloor x = n.
Proof.
  intros Hlo Hhi.
  pose proof (Qfloor_le x) as Flo. pose proof (Qlt_floor x) as Fhi.
  assert (H1 : (n < Qfloor x + 1)%Z)
    by (rewrite Zlt_Qlt; eapply Qle_lt_trans; eassumption).
  assert (H2 : (Qfloor x < n + 1)%Z)
    by (rewrite Zlt_Qlt; eapply Qle_lt_trans; eassumption).
  lia.
Qed.

(** [a % m] is the one representative of [a] in [0, m). *)
Lemma py_mod_unique (a m r : Q) (k : Z) :
  0 < m -> 0 <= r -> r < m -> a == r + inject_Z k * m -> py_mod a m == r.
Proof.
  intros Hm Hr0 Hrm Ha.
  assert (Hm0 : ~ m == 0) by (intro E; rewrite E in Hm; discriminate).
  assert (Hq : a / m == r / m + inject_Z k) by (rewrite Ha; field; exact Hm0).
  assert (Hr1 : 0 <= r / m) by (apply Qle_shift_div_l; [exact Hm | lra]).
  assert (Hr2 : r / m < 1) by (apply Qlt_shift_div_r; [exact Hm | lra]).
  assert (Hf : Qfloor (a / m) = k).
  { apply Qfloor_unique; rewrite Hq.
    - lra.
    - rewrite inject_Z_plus. change (inject_Z 1) with 1. lra. }
  unfold py_mod. rewrite Hf, Ha. ring.
Qed.

Lemma py_mod_add_turns (a m : Q) (k : Z) :
  0 < m -> py_mod (a + inject_Z k * m) m == py_mod a m.
Proof.
  intros Hm. destruct (py_mod_range a m Hm) as [Hlo Hhi].
  apply (py_mod_unique _ m _ (Qfloor (a / m) + k)%Z Hm Hlo Hhi).
  rewrite inject_Z_plus, (py_mod_congruent a m). ring.
Qed.

(** The reverse difference: zero stays zero, anything else is mirrored. *)
Lemma py_mod_opp (a m : Q) :
  0 < m ->
  (py_mod a m == 0 -> py_mod (- a) m == 0)
  /\ (~ py_mod a m == 0 -> py_mod (- a) m == m - py_mod a m).
Proof.
  intros Hm. destruct (py_mod_range a m Hm) as [Hlo Hhi].
  pose proof (py_mod_congruent a m) as Hc.
  split; intros H.
  - apply (py_mod_unique _ m _ (- Qfloor (a / m))%Z Hm); try lra.
    rewrite inject_Z_opp. lra.
  - assert (H0 : 0 < py_mod a m)
      by (apply Qnot_le_lt; intro; apply H; lra).
    apply (py_mod_unique _ m _ (- Qfloor (a / m) - 1)%Z Hm); try lra.
    unfold Z.sub. rewrite inject_Z_plus, !inject_Z_opp.
    change (inject_Z 1) with 1. lra.
Qed.

Lemma turn_direction_compat (m m' c c' p p' : Q) :
  m == m' -> py_mod (c - p) m == py_mod (c' - p') m' ->
  turn_direction m c p = turn_direction m' c' p'.
Proof.
  intros Hm Hd. unfold turn_direction.
  assert (E1 : Qeq_bool (py_mod (c - p) m) 0 = Qeq_bool (py_mod (c' - p') m') 0)
    by (apply eq_true_iff_eq; rewrite !Qeq_bool_iff, Hd; reflexivity).
  assert (E2 : Qle_bool (py_mod (c - p) m) (m / 2)
               = Qle_bool (py_mod (c' - p') m') (m' / 2))
    by (apply eq_true_iff_eq; rewrite !Qle_bool_iff, Hd, Hm; reflexivity).
  now rewrite E1, E2.
Qed.

(** X8 — the turn computed from two angles does not change when either
    angle is moved by whole turns. *)
Theorem X8_turn_direction_whole_turns (m c p : Q) (j k : Z) :
  0 < m ->
  turn_direction m (c + inject_Z j * m) (p + inject_Z k * m)
  = turn_direction m c p.
Proof.
  intros Hm. apply turn_direction_compat; [reflexivity|].
  rewrite <- (py_mod_add_turns (c - p) m (j - k)%Z Hm).
  apply py_mod_compat; [|reflexivity].
  unfold Z.sub. rewrite inject_Z_plus, inject_Z_opp. ring.
Qed.

(** X9 — swapping the two angles reverses the turn, except at exactly half
    a turn, which is +1 both ways; no turn stays no turn. *)
Theorem X9_turn_direction_reverse (m c p : Q) :
  0 < m ->
  let delta := py_mod (c - p) m in
  (turn_direction m c p = None -> turn_direction m p c = None)
  /\ (turn_direction m c p = Some 1%Z -> ~ delta == m / 2 ->
      turn_direction m p c = Some (-1)%Z)
  /\ (turn_direction m c p = Some (-1)%Z ->
      turn_direction m p c = Some 1%Z)
  /\ (delta == m / 2 ->
      turn_direction m c p = Some 1%Z /\ turn_direction m p c = Some 1%Z).
Proof.
  intros Hm delta.
  destruct (py_mod_range (c - p) m Hm) as [Hlo Hhi]. fold delta in Hlo, Hhi.
  destruct (py_mod_opp (c - p) m Hm) as [Hz Hnz]. fold delta in Hz, Hnz.
  assert (Hswap : py_mod (p - c) m == py_mod (- (c - p)) m)
    by (apply py_mod_compat; [ring | reflexivity]).
  destruct (turn_direction_spec m c p) as (S0 & S1 & S2). fold delta in S0, S1, S2.
  destruct (turn_direction_spec m p c) as (R0 & R1 & R2).
  rewrite Hswap in R0, R1, R2.
  assert (Hcases : delta == 0 \/ ~ delta == 0) by
    (destruct (Qeq_dec delta 0); auto).
  repeat apply conj.
  - intros Ht. destruct Hcases as [E | E]; [apply R0, Hz, E|].
    exfalso. destruct (Qlt_le_dec (m / 2) delta) as [H | H].
    + rewrite (S2 E H) in Ht. discriminate.
    + rewrite (S1 E H) in Ht. discriminate.
  - intros Ht Hhalf. destruct Hcases as [E | E];
      [rewrite (S0 E) in Ht; discriminate|].
    destruct (Qlt_le_dec (m / 2) delta) as [H | H];
      [rewrite (S2 E H) in Ht; discriminate|].
    specialize (Hnz E).
    apply R2; rewrite Hnz; [intro; lra_half|].
    assert (delta < m / 2) by (apply Qle_lteq in H; destruct H; [auto | tauto]).
    lra_half.
  - intros Ht. destruct Hcases as [E | E];
      [rewrite (S0 E) in Ht; discriminate|].
    destruct (Qlt_le_dec (m / 2) delta) as [H | H];
      [| rewrite (S1 E H) in Ht; discriminate].
    specialize (Hnz E).
    apply R1; rewrite Hnz; [intro; lra_half | lra_half].
  - intros Hhalf.
    assert (E : ~ delta == 0) by (intro E; rewrite E in Hhalf; lra_half).
    specialize (Hnz E). split.
    + apply S1; [exact E | lra_half].
    + apply R1; rewrite Hnz; [intro; lra_half | lra_half].
Qed.

(** X10 — the shifted angle does not change when the raw angle or a
    nonzero [zero_angle] is moved by whole turns. *)
Theorem X10_shift_zero_whole_turns (z m a : Q) (j k : Z) :
  0 < m -> ~ z == 0 -> ~ z + inject_Z k * m == 0 ->
  shift_zero (z + inject_Z k * m) m (a + inject_Z j * m) == shift_zero z m a.
Proof.
  intros Hm Hz Hz'. unfold shift_zero.
  apply Qeq_bool_false in Hz, Hz'. rewrite Hz, Hz'. cbn [negb]. cbv zeta.
  assert (Ep : py_mod (a + inject_Z j * m - (z + inject_Z k * m)) m
               == py_mod (a - z) m).
  { rewrite <- (py_mod_add_turns (a - z) m (j - k)%Z Hm).
    apply py_mod_compat; [|reflexivity].
    unfold Z.sub. rewrite inject_Z_plus, inject_Z_opp. ring. }
  assert (Eg : Qgt_bool (py_mod (a + inject_Z j * m - (z + inject_Z k * m)) m)
                        (m / 2)
               = Qgt_bool (py_mod (a - z) m) (m / 2))
    by (apply eq_true_iff_eq; rewrite !Qgt_bool_true, Ep; reflexivity).
  rewrite Eg. destruct (Qgt_bool (py_mod (a - z) m) (m / 2)); rewrite Ep;
    reflexivity.
Qed.

(** ** The reference sample *)

Lemma scan_back_found (coords : list xyt) (x y sq : Q) (i : nat) (p : xy) :
  scan_back coords x y sq i = Some p ->
  exists k c,
    (1 <= k <= i)%nat /\ nth_error coords k = Some c
    /\ far_enough sq x y c = true /\ p = xy_of c
    /\ forall j c', (k < j <= i)%nat -> nth_error coords j = Some c' ->
                    far_enough sq x y c' = false.
Proof.
  induction i as [| i IH]; [discriminate|].
  cbn [scan_back].
  destruct (nth_error coords (S i)) as [[[cx cy] ct]|] eqn:En; [|discriminate].
  destruct (Qle_bool sq ((cx - x) ^ 2 + (cy - y) ^ 2)) eqn:Ef.
  - intros H. injection H as <-. exists (S i), (cx, cy, ct).
    repeat split; auto; try lia.
  - intros H. destruct (IH H) as (k & c & Hk & Hn & Hfar & Hp & Hlater).
    exists k, c. repeat split; auto; try lia.
    intros j c' Hj Hn'.
    destruct (Nat.eq_dec j (S i)) as [-> | Hne].
    + rewrite En in Hn'. injection Hn' as <-. exact Ef.
    + apply (Hlater j c'); [lia | exact Hn'].
Qed.

Lemma scan_back_none (coords : list xyt) (x y sq : Q) (i : nat) :
  (i < List.length coords)%nat ->
  scan_back coords x y sq i = None ->
  forall j c', (1 <= j <= i)%nat -> nth_error coords j = Some c' ->
               far_enough sq x y c' = false.
Proof.
  induction i as [| i IH]; intros Hi H j c' Hj Hn; [lia|].
  cbn [scan_back] in H.
  destruct (nth_error coords (S i)) as [[[cx cy] ct]|] eqn:En.
  - destruct (Qle_bool sq ((cx - x) ^ 2 + (cy - y) ^ 2)) eqn:Ef; [discriminate|].
    destruct (Nat.eq_dec j (S i)) as [-> | Hne].
    + rewrite En in Hn. injection Hn as <-. exact Ef.
    + apply (IH ltac:(lia) H j c'); [lia | exact Hn].
  - apply nth_error_None in En. lia.
Qed.

Lemma remove_far_nonempty (x y : Q) (s : DirectionMonitor) (l : list xyt) :
  _recent_near_coords s = Bound l -> l <> [] ->
  _remove_far_enough_recent_coords x y s
  = (Ret tt,
     with_pre_recent_coord
       (scan_back l x y (sq_min_distance s) (List.length l - 1)) s).
Proof.
  intros El Hne. unfold _remove_far_enough_recent_coords. unfold_py.
  rewrite El. destruct l as [| c l']; [congruence|].
  cbn [List.length Nat.eqb]. fold (sq_min_distance s).
  cbn [_min_distance _units_per_mm with_pre_recent_coord].
  destruct (scan_back _ _ _ _ _); reflexivity.
Qed.

(** X1 — the reference sample. With a window that is not empty,
    [_remove_far_enough_recent_coords] leaves in [_pre_recent_coord] the
    latest stored sample, the first one excepted, that is at least the
    minimal distance from the new position; when no such sample exists it
    leaves [None]. *)
Theorem X1_remove_far_reference (x y : Q) (s : DirectionMonitor) (l : list xyt) :
  _recent_near_coords s = Bound l -> l <> [] ->
  let s' := exec (_remove_far_enough_recent_coords x y) s in
  let far := far_enough (sq_min_distance s) x y in
  (exists k c,
     (1 <= k < List.length l)%nat /\ nth_error l k = Some c /\ far c = true
     /\ _pre_recent_coord s' = Bound (Some (xy_of c))
     /\ forall j c', (k < j < List.length l)%nat -> nth_error l j = Some c' ->
                     far c' = false)
  \/ (_pre_recent_coord s' = Bound None
      /\ forall j c', (1 <= j < List.length l)%nat -> nth_error l j = Some c' ->
                      far c' = false).
Proof.
  intros El Hne s' far. subst s'. unfold exec.
  rewrite (remove_far_nonempty x y s l El Hne). cbn [snd _pre_recent_coord with_pre_recent_coord].
  assert (Hlen : (List.length l - 1 < List.length l)%nat)
    by (destruct l; [congruence | simpl; lia]).
  destruct (scan_back l x y (sq_min_distance s) (List.length l - 1))
    as [p|] eqn:Es.
  - left. destruct (scan_back_found _ _ _ _ _ _ Es)
      as (k & c & Hk & Hn & Hfar & -> & Hlater).
    exists k, c. repeat split; auto; try lia.
    intros j c' Hj. apply Hlater. lia.
  - right. split; [reflexivity|].
    intros j c' Hj. apply (scan_back_none _ _ _ _ _ Hlen Es). lia.
Qed.

Lemma sum_of_squares_nonneg (a b : Q) : 0 <= a ^ 2 + b ^ 2.
Proof. simpl. nra. Qed.

(** X3 — with a minimal distance of 0 and at least two stored samples,
    the reference is the sample stored last. *)
Theorem X3_remove_far_zero_distance (x y : Q) (s : DirectionMonitor)
    (l : list xyt) (prev : xyt) :
  _recent_near_coords s = Bound (l ++ [prev]) -> l <> [] ->
  _min_distance s == 0 ->
  _pre_recent_coord (exec (_remove_far_enough_recent_coords x y) s)
  = Bound (Some (xy_of prev)).
Proof.
  intros El Hne Hd. unfold exec.
  rewrite (remove_far_nonempty x y s (l ++ [prev]) El)
    by (destruct l; discriminate).
  cbn [snd _pre_recent_coord with_pre_recent_coord].
  rewrite length_app. cbn [List.length].
  replace (List.length l + 1 - 1)%nat with (S (List.length l - 1))
    by (destruct l; [congruence | simpl; lia]).
  cbn [scan_back].
  replace (S (List.length l - 1)) with (List.length l)
    by (destruct l; [congruence | simpl; lia]).
  rewrite nth_error_app2 by lia. rewrite Nat.sub_diag. cbn [nth_error].
  destruct prev as [[px py] pt].
  assert (Hsq : sq_min_distance s == 0)
    by (unfold sq_min_distance; rewrite Hd; simpl; ring).
  assert (Hfar : Qle_bool (sq_min_distance s) ((px - x) ^ 2 + (py - y) ^ 2) = true).
  { apply Qle_bool_iff. rewrite Hsq. apply sum_of_squares_nonneg. }
  rewrite Hfar. reflexivity.
Qed.

(** ** The angle after an update *)

(** X2 — an update with valid arguments, on an object whose window,
    reference and angle are bound, leaves the reference that
    [_remove_far_enough_recent_coords] picks for the new position; the angle
    is then [None] when there is no reference, and otherwise the direction
    from the reference to the new sample, in the configured units and
    shifted by [zero_angle]. *)
Theorem X2_update_xyt_angle (x y t : Q) (s : DirectionMonitor) (l : list xyt)
    (r0 : option xy) (a0 : option Q) :
  0 <= t ->
  _recent_near_coords s = Bound l ->
  _pre_recent_coord s = Bound r0 ->
  _curr_angle s = Bound a0 ->
  let s' := exec (update_xyt (PyNum x) (PyNum y) (PyNum t)) s in
  _pre_recent_coord s'
  = _pre_recent_coord (exec (_remove_far_enough_recent_coords x y) s)
  /\ (_pre_recent_coord s' = Bound None -> _curr_angle s' = Bound None)
  /\ (forall p z, _pre_recent_coord s' = Bound (Some p) ->
        _zero_angle s = Bound z ->
        _curr_angle s'
        = Bound (Some (shift_zero z (_max_angle s)
                         (to_units (_angle_units s) (get_angle p (x, y, t)))))).
Proof.
  intros Ht El Er Ea s'. subst s'. unfold exec.
  pose proof (update_xyt_valid x y t s Ht) as EU.
  set (U := update_xyt (PyNum x) (PyNum y) (PyNum t) s) in *.
  destruct (remove_far_bound x y s l El) as (s1 & E1 & El1 & Ea1).
  assert (F1 : exists r1, s1 = with_pre_recent_coord r1 s).
  { destruct (remove_far_frame x y s) as [H | [v H]];
      unfold exec in H; rewrite E1 in H; simpl in H; subst s1.
    - exists r0. destruct s. simpl in *. now subst.
    - eauto. }
  destruct F1 as (r1 & ->).
  unfold bind at 1 in EU. rewrite E1 in *. cbn [snd].
  unfold bind at 1, get_attr at 1 in EU. rewrite El1 in EU.
  unfold bind at 1, assign at 1 in EU.
  set (s2 := with_recent_near_coords (l ++ [(x, y, t)])
               (with_pre_recent_coord r1 s)) in *.
  unfold bind at 1, get_attr at 1 in EU.
  replace (_curr_angle s2) with (Bound a0) in EU by (symmetry; exact Ea).
  unfold bind at 1 in EU.
  destruct r1 as [p|].
  - destruct (_zero_angle s) as [| z] eqn:Ez.
    + assert (E3 : _calc_curr_angle s2 = (Raise AttributeError, s2)).
      { unfold _calc_curr_angle. unfold_py. simpl.
        rewrite py_index_last. simpl. rewrite Ez. reflexivity. }
      rewrite E3 in EU. rewrite EU. simpl.
      split; [reflexivity | split; [intros H; discriminate H|]].
      intros p' z' _ Hz. discriminate Hz.
    + rewrite (calc_curr_angle_defined s2 p l (x, y, t) z eq_refl eq_refl Ez)
        in EU.
      rewrite EU.
      match goal with
      | |- context [_check_if_new_curve a0 ?s3] =>
          destruct (check_if_new_curve_frame a0 s3) as (_ & Hca & Hpre & _)
      end.
      cbv zeta in Hca, Hpre. unfold exec in Hca, Hpre.
      rewrite Hca, Hpre. simpl.
      split; [reflexivity | split; [intros H; discriminate H|]].
      intros p' z' Hp Hz. injection Hp as <-. injection Hz as <-. reflexivity.
  - assert (E3 : _calc_curr_angle s2 = (Ret tt, with_curr_angle None s2))
      by reflexivity.
    rewrite E3 in EU. rewrite EU.
    destruct (check_if_new_curve_frame a0 (with_curr_angle None s2))
      as (_ & Hca & Hpre & _).
    cbv zeta in Hca, Hpre. unfold exec in Hca, Hpre.
    rewrite Hca, Hpre. simpl.
    split; [reflexivity | split; [reflexivity|]].
    intros p' z' H. discriminate H.
Qed.

(** ** Curves over a session *)

Lemma turn_direction_values (m c p : Q) (d : Z) :
  turn_direction m c p = Some d -> (d = 1 \/ d = -1)%Z.
Proof.
  unfold turn_direction. destruct (Qeq_bool _ 0); [discriminate|].
  destruct (Qle_bool _ _); intros H; injection H as <-; auto.
Qed.

(** [_check_if_new_curve] on an object with everything bound: nothing
    changes, or a new curve is opened. *)
Lemma check_if_new_curve_cases (s : DirectionMonitor) (last v : option Q)
    (l : list xyt) (n : Z) (r : option Z) :
  _curr_angle s = Bound v ->
  _recent_near_coords s = Bound l ->
  _n_curves s = Bound n ->
  _curr_curve_direction s = Bound r ->
  exec (_check_if_new_curve last) s = s
  \/ exists c p d,
       v = Some c /\ last = Some p
       /\ turn_direction (_max_angle s) c p = Some d /\ r <> Some d
       /\ exec (_check_if_new_curve last) s
          = with_n_curves (n + 1)%Z
              (with_curr_curve_start_index
                 (Some (Z.of_nat (List.length l) - 1)%Z)
                 (with_curr_curve_start_angle (Some c)
                    (with_curr_curve_direction (Some d) s))).
Proof.
  intros Ev El En Er. unfold exec.
  destruct v as [c|];
    [| left; now rewrite (check_if_new_curve_undefined s None last Ev); auto].
  destruct last as [p|];
    [| left; now rewrite (check_if_new_curve_undefined s (Some c) None Ev); auto].
  destruct (turn_direction (_max_angle s) c p) as [d|] eqn:Ht;
    [| left; now rewrite (check_if_new_curve_no_turn s c p Ev Ht)].
  destruct (differs d r) eqn:Hd.
  - right. exists c, p, d. repeat split; auto.
    + now apply differs_true_neq.
    + now rewrite (check_if_new_curve_new_turn s c p d r l n Ev Ht Er Hd El En).
  - left. now rewrite (check_if_new_curve_same_turn s c p d r Ev Ht Er Hd).
Qed.

Lemma curve_consistent_grow (s s' : DirectionMonitor) (l l' : list xyt) :
  curve_state s' = curve_state s ->
  _recent_near_coords s = Bound l ->
  _recent_near_coords s' = Bound (l ++ l') ->
  curve_consistent s -> curve_consistent s'.
Proof.
  unfold curve_state. intros Hcs El El' Hc.
  injection Hcs as Hd Ha Hi Hn.
  destruct Hc as [(Cd & Ca & Ci & Cn)
                 | (d & a & i & n & l0 & Cd & Hv & Ca & Ci & Cn & Hn1 & Cl & Hr)].
  - left. repeat split; congruence.
  - right. exists d, a, i, n, (l ++ l').
    assert (l0 = l) by congruence. subst l0.
    repeat split; try congruence; try lia.
    rewrite length_app. lia.
Qed.

Lemma curve_consistent_update (x y t : pyval) (s : DirectionMonitor) :
  curve_consistent s -> curve_consistent (exec (update_xyt x y t) s).
Proof.
  intros Hc. unfold exec.
  destruct (update_xyt_shape x y t s)
    as [(e & s2 & EU & Hcs & Hca)
       | (last & s2 & v & l & Hlast & Hcs & Hu & Hv & Hl & EU & Hwin)].
  - rewrite EU. cbn [snd].
    destruct (_recent_near_coords s) as [| l] eqn:El.
    + (* no window: only the first case of the invariant can hold *)
      destruct Hc as [(Cd & Ca & Ci & Cn) | (d & a & i & n & l0 & _ & _ & _ & _ & _ & _ & Cl & _)];
        [| congruence].
      unfold curve_state in Hcs. injection Hcs as Hd Ha Hi Hn.
      left. repeat split; congruence.
    + destruct (update_xyt_window x y t s l El) as (l' & El').
      unfold exec in El'. rewrite EU in El'. cbn [snd] in El'.
      apply (curve_consistent_grow s s2 l l' Hcs El El' Hc).
  - destruct Hwin as (l0 & sample & El0 & ->).
    assert (Hc2 : curve_consistent s2)
      by apply (curve_consistent_grow s s2 l0 [sample] Hcs El0 Hl Hc).
    rewrite EU. fold (exec (_check_if_new_curve last) s2).
    assert (Hb : exists n r, _n_curves s2 = Bound n
                             /\ _curr_curve_direction s2 = Bound r
                             /\ (0 <= n)%Z).
    { destruct Hc2 as [(Cd & _ & _ & Cn)
                      | (d & a & i & n & l1 & Cd & _ & _ & _ & Cn & Hn1 & _)].
      - exists 0%Z, None. repeat split; auto. lia.
      - exists n, (Some d). repeat split; auto. lia. }
    destruct Hb as (n & r & En & Er & Hn0).
    destruct (check_if_new_curve_cases s2 last v _ n r Hv Hl En Er)
      as [-> | (c & p & d & -> & -> & Ht & Hne & ->)]; [exact Hc2|].
    right. exists d, c, (Z.of_nat (List.length (l0 ++ [sample])) - 1)%Z,
             (n + 1)%Z, (l0 ++ [sample]).
    repeat split; try (simpl; congruence); try lia;
      try (apply (turn_direction_values _ _ _ _ Ht));
      rewrite length_app; simpl; lia.
Qed.

(** The setters touch the configuration only. *)
Lemma setter_frame (c : call) (s : DirectionMonitor) :
  match c with
  | CallReset | CallUpdate _ _ _ => True
  | _ =>
      let s' := exec (do_call c) s in
      curve_state s' = curve_state s
      /\ _recent_near_coords s' = _recent_near_coords s
      /\ _curr_angle s' = _curr_angle s
  end.
Proof.
  destruct c as [| x y t | v | v | v]; auto; cbv zeta;
    cbn [do_call]; unfold set_min_distance, set_angle_units, set_zero_angle,
      validate_attr_numeric, validate_attr_not_negative, validate_attr_type;
    unfold_py; destruct v as [| q | |]; simpl; auto.
  destruct (Qlt_bool q 0); simpl; auto.
Qed.

Lemma curve_consistent_frame (s s' : DirectionMonitor) :
  curve_state s' = curve_state s ->
  _recent_near_coords s' = _recent_near_coords s ->
  curve_consistent s -> curve_consistent s'.
Proof.
  intros Hcs Hw Hc.
  destruct (_recent_near_coords s) as [| l] eqn:El.
  - destruct Hc as [(Cd & Ca & Ci & Cn)
                   | (d & a & i & n & l0 & _ & _ & _ & _ & _ & _ & Cl & _)];
      [| congruence].
    unfold curve_state in Hcs. injection Hcs as Hd Ha Hi Hn.
    left. repeat split; congruence.
  - apply (curve_consistent_grow s s' l [] Hcs El); [|exact Hc].
    rewrite app_nil_r. exact Hw.
Qed.

Lemma curve_consistent_call (c : call) (s : DirectionMonitor) :
  curve_consistent s -> curve_consistent (exec (do_call c) s).
Proof.
  intros Hc.
  pose proof (setter_frame c s) as Hf.
  destruct c as [| x y t | v | v | v].
  - left. repeat split.
  - apply curve_consistent_update, Hc.
  - destruct Hf as (Hcs & Hw & _).
    apply (curve_consistent_frame s _ Hcs Hw Hc).
  - destruct Hf as (Hcs & Hw & _).
    apply (curve_consistent_frame s _ Hcs Hw Hc).
  - destruct Hf as (Hcs & Hw & _).
    apply (curve_consistent_frame s _ Hcs Hw Hc).
Qed.

(** X4 — after a [reset()], whatever calls follow (updates with any
    arguments, setters, further resets), the curve attributes agree with each
    other: either no direction, start angle or start index is recorded and
    [n_curves] is 0, or the direction is +1 or -1, a start angle is
    recorded, the start index lies inside the window and [n_curves] is at
    least 1. *)
Theorem X4_curve_state_consistent (s : DirectionMonitor) (cs : list call) :
  curve_consistent (run_calls cs (exec reset s)).
Proof.
  assert (H0 : curve_consistent (exec reset s)) by (left; repeat split).
  revert H0. generalize (exec reset s) as s0.
  induction cs as [| c rest IH]; intros s0 H0; simpl; [exact H0|].
  apply IH, curve_consistent_call, H0.
Qed.

(** An update that raises the count opens a curve: what it records. *)
Lemma update_xyt_new_curve (x y t : pyval) (s : DirectionMonitor) (n : Z) :
  _n_curves s = Bound n ->
  let s' := exec (update_xyt x y t) s in
  _n_curves s' = Bound (n + 1)%Z ->
  exists c p d r l sample,
    _curr_angle s = Bound (Some p)
    /\ _curr_angle s' = Bound (Some c)
    /\ turn_direction (_max_angle s) c p = Some d
    /\ _curr_curve_direction s = Bound r /\ r <> Some d
    /\ _curr_curve_direction s' = Bound (Some d)
    /\ _curr_curve_start_angle s' = Bound (Some c)
    /\ _recent_near_coords s = Bound l
    /\ _recent_near_coords s' = Bound (l ++ [sample])
    /\ _curr_curve_start_index s' = Bound (Some (Z.of_nat (List.length l))).
Proof.
  intros En s' Hn'. subst s'. unfold exec in *.
  destruct (update_xyt_shape x y t s)
    as [(e & s2 & EU & Hcs & Hca)
       | (last & s2 & v & l & Hlast & Hcs & Hu & Hv & Hl & EU & Hwin)];
    rewrite EU in *; unfold curve_state in Hcs; injection Hcs as Hd _ _ Hn.
  - simpl in Hn'. rewrite Hn, En in Hn'. injection Hn' as Hn'. lia.
  - destruct Hwin as (l0 & sample & El0 & ->).
    assert (En2 : _n_curves s2 = Bound n) by congruence.
    destruct (check_if_new_curve_count s2 last v _ n Hv Hl En2)
      as [[_ Ht] | [Hsame _]]; unfold exec in *;
      [| rewrite Hsame in Hn'; injection Hn' as Hn'; lia].
    destruct Ht as (p & c & d & r & -> & -> & Ht & Er & Hne).
    apply differs_true_neq in Hne.
    rewrite (check_if_new_curve_new_turn s2 c p d r _ n Hv Ht Er Hne Hl En2).
    exists c, p, d, r, l0, sample. cbn.
    rewrite <- (max_angle_units s s2 Hu). apply differs_true_neq in Hne.
    repeat split; try congruence.
    rewrite length_app. cbn. do 2 f_equal. lia.
Qed.

(** X5 — curves alternate: when an update raises [n_curves] while a
    direction +1 or -1 is recorded, the direction recorded afterwards is the
    opposite one. *)
Theorem X5_curves_alternate (x y t : pyval) (s : DirectionMonitor) (n r : Z) :
  _n_curves s = Bound n ->
  _curr_curve_direction s = Bound (Some r) ->
  (r = 1 \/ r = -1)%Z ->
  let s' := exec (update_xyt x y t) s in
  _n_curves s' = Bound (n + 1)%Z ->
  _curr_curve_direction s' = Bound (Some (- r)%Z).
Proof.
  intros En Er Hr s' Hn'.
  destruct (update_xyt_new_curve x y t s n En Hn')
    as (c & p & d & r' & l & sample & _ & _ & Ht & Er' & Hne & Hd' & _).
  fold s' in Hd'. rewrite Hd'.
  assert (r' = Some r) by congruence. subst r'.
  destruct (turn_direction_values _ _ _ _ Ht) as [-> | ->];
    destruct Hr as [-> | ->]; try reflexivity; congruence.
Qed.

Lemma py_index_newest {A : Type} (l : list A) (a : A) :
  py_index (l ++ [a]) (Z.of_nat (List.length l)) = Ret a.
Proof.
  unfold py_index.
  replace (Z.of_nat (List.length l) <? 0)%Z with false
    by (symmetry; apply Z.ltb_ge; lia).
  replace (0 <=? Z.of_nat (List.length l))%Z with true
    by (symmetry; apply Z.leb_le; lia).
  replace (Z.of_nat (List.length l) <? Z.of_nat (List.length (l ++ [a])))%Z
    with true by (symmetry; apply Z.ltb_lt; rewrite length_app; simpl; lia).
  simpl. rewrite Nat2Z.id, nth_error_app2 by lia.
  rewrite Nat.sub_diag. reflexivity.
Qed.

(** X6 — a curve starts at the sample that opened it: when an update with
    valid arguments raises [n_curves], [curr_curve_start_xyt] returns the
    sample just given and [curr_curve_start_angle] returns the angle just
    computed. *)
Theorem X6_new_curve_starts_at_newest_sample (x y t : Q) (s : DirectionMonitor)
    (n : Z) :
  0 <= t ->
  _n_curves s = Bound n ->
  let s' := exec (update_xyt (PyNum x) (PyNum y) (PyNum t)) s in
  _n_curves s' = Bound (n + 1)%Z ->
  result curr_curve_start_xyt s' = Ret (Some (x, y, t))
  /\ exists c, result curr_angle s' = Ret (Some c)
               /\ result curr_curve_start_angle s' = Ret (Some c).
Proof.
  intros Ht En s' Hn'.
  destruct (update_xyt_new_curve _ _ _ s n En Hn')
    as (c & p & d & r & l & sample & _ & Hc & _ & _ & _ & _ & Ha & El & El' & Hi).
  fold s' in Hc, Ha, El', Hi.
  pose proof (update_xyt_window_valid x y t s l Ht El) as Hw. fold s' in Hw.
  split.
  - unfold result, curr_curve_start_xyt. unfold_py.
    rewrite Hi, Hw, py_index_newest. reflexivity.
  - exists c. unfold result, curr_angle, curr_curve_start_angle, get_attr.
    rewrite Hc, Ha. split; reflexivity.
Qed.

(** ** The window over a session *)

Lemma run_updates_window_valid (qs : list xyt) (s : DirectionMonitor)
    (l : list xyt) :
  _recent_near_coords s = Bound l ->
  Forall (fun c => 0 <= snd c) qs ->
  _recent_near_coords (run_updates (map to_args qs) s) = Bound (l ++ qs).
Proof.
  revert s l. induction qs as [| [[x y] t] rest IH]; intros s l El Hq; simpl.
  - now rewrite app_nil_r.
  - inversion Hq as [| ? ? Ht Hrest]; subst. simpl in Ht.
    rewrite (IH _ (l ++ [(x, y, t)])); auto.
    + now rewrite <- app_assoc.
    + apply update_xyt_window_valid; assumption.
Qed.

(** X7 — the window is the session: after [reset()] and updates whose
    times are not negative, the window holds exactly the samples given, in
    the order given (whether or not the calls completed). *)
Theorem X7_window_is_the_session (qs : list xyt) (s : DirectionMonitor) :
  Forall (fun c => 0 <= snd c) qs ->
  _recent_near_coords (run_updates (map to_args qs) (exec reset s)) = Bound qs.
Proof.
  intros Hq. apply (run_updates_window_valid qs (exec reset s) []); auto.
Qed.

(** ** Construction and the public interface *)


Lemma never_computed_call (c : call) (s : DirectionMonitor) :
  never_computed s -> never_computed (exec (do_call c) s).
Proof.
  intros [Ha Hcs].
  pose proof (setter_frame c s) as Hf.
  destruct c as [| x y t | v | v | v].
  - split; [exact Ha | now right].
  - cbn [do_call]. unfold exec.
    destruct (update_xyt_shape x y t s)
      as [(e & s2 & EU & Hcs2 & Hca)
         | (last & s2 & v & l & Hlast & _)]; [|congruence].
    rewrite EU. cbn [snd]. split; [congruence|].
    rewrite Hcs2. exact Hcs.
  - destruct Hf as (Hcs' & _ & Ha'). split; [congruence|]. now rewrite Hcs'.
  - destruct Hf as (Hcs' & _ & Ha'). split; [congruence|]. now rewrite Hcs'.
  - destruct Hf as (Hcs' & _ & Ha'). split; [congruence|]. now rewrite Hcs'.
Qed.

Lemma never_computed_run (cs : list call) (s : DirectionMonitor) :
  never_computed s -> never_computed (run_calls cs s).
Proof.
  revert s. induction cs as [| c rest IH]; intros s H; simpl; [exact H|].
  apply IH, never_computed_call, H.
Qed.

(** X12 — through the public interface no angle is ever computed and no
    curve is ever counted: on an object that the constructor built,
    after any sequence of resets, updates and setter calls, every
    [update_xyt] raises, the [curr_angle] accessor raises [AttributeError],
    and [n_curves] and [curr_curve_direction] either raise
    [AttributeError] (no [reset()] yet) or return 0 and [None]. *)
Theorem X12_public_interface_never_computes
    (units_per_mm min_distance angle_units : pyval) (dm : DirectionMonitor)
    (cs : list call) :
  __init__ units_per_mm min_distance angle_units = Ret dm ->
  let s := run_calls cs dm in
  (forall x y t, exists e, result (update_xyt x y t) s = Raise e)
  /\ result curr_angle s = Raise AttributeError
  /\ (result n_curves s = Raise AttributeError \/ result n_curves s = Ret 0%Z)
  /\ (result curr_curve_direction s = Raise AttributeError
      \/ result curr_curve_direction s = Ret None).
Proof.
  intros Hinit s.
  assert (H0 : never_computed dm).
  { destruct (init_unbound _ _ _ _ Hinit) as (u & d & a & ->).
    split; [reflexivity | now left]. }
  destruct (never_computed_run cs dm H0) as [Ha Hcs]. fold s in Ha, Hcs.
  split; [| split; [| split]].
  - intros x y t. apply update_xyt_curr_angle_unbound, Ha.
  - unfold result, curr_angle, get_attr. now rewrite Ha.
  - unfold result, n_curves, get_attr. unfold curve_state in Hcs.
    destruct Hcs as [H | H]; injection H as _ _ _ ->; auto.
  - unfold result, curr_curve_direction, get_attr. unfold curve_state in Hcs.
    destruct Hcs as [H | H]; injection H as -> _ _ _; auto.
Qed.

End Monitor.

(** * The properties at sample inputs *)

Lemma C2_first_turn_opens_first_curve_witness :
  let s' := exec (_check_if_new_curve approx_two_pi (Some 0)) turned_right in
  _curr_curve_direction s' = Bound (Some 1%Z)
  /\ _curr_curve_start_angle s' = Bound (Some 90)
  /\ _curr_curve_start_index s' = Bound (Some 3%Z)
  /\ _n_curves s' = Bound 1%Z.
Proof.
  apply (C2_first_turn_opens_first_curve approx_two_pi turned_right 90 0 1%Z
           [(0, 0, 0); (0, 10, 1); (0, 20, 2); (10, 20, 3)] 0%Z);
    vm_compute; reflexivity.
Defined.

(** The claim of the specification fails on [turned_right]: the call
    [_check_if_new_curve(0)] finds the angle 90, computes the turn +1, finds
    no recorded direction, and sets [_n_curves] to 1. *)
Lemma C2_first_turn_is_counted : ~ first_turn_not_counted approx_two_pi.
Proof.
  intros H.
  specialize (H turned_right 90 0 1%Z
                [(0, 0, 0); (0, 10, 1); (0, 20, 2); (10, 20, 3)] 0%Z).
  destruct H as [_ H]; try (vm_compute; reflexivity).
  vm_compute in H. discriminate H.
Qed.

(** The same in a whole session, with [axis_angle] for [get_angle]: up,
    up, then right. *)
Lemma first_turn_session :
  let s := run_updates approx_two_pi axis_angle
             [(PyNum 0, PyNum 0, PyNum 0); (PyNum 0, PyNum 10, PyNum 1);
              (PyNum 0, PyNum 20, PyNum 2); (PyNum 10, PyNum 20, PyNum 3)]
             primed_monitor in
  _curr_curve_direction s = Bound (Some 1%Z) /\ _n_curves s = Bound 1%Z.
Proof. vm_compute. split; reflexivity. Qed.

Lemma C4_first_update_raises_AttributeError_witness :
  result (update_xyt approx_two_pi axis_angle (PyNum 0) (PyNum 0) (PyNum 0))
         fresh_monitor = Raise AttributeError
  /\ result (update_xyt approx_two_pi axis_angle (PyNum 0) (PyNum 0) (PyNum 0))
            (exec reset fresh_monitor) = Raise AttributeError.
Proof.
  destruct (C4_first_update_raises_AttributeError approx_two_pi axis_angle
              (PyNum 1) (PyNum 0) (PyUnits Degrees) fresh_monitor 0 0 0)
    as (_ & _ & H1 & _ & _ & H2).
  - reflexivity.
  - unfold Qle. simpl. lia.
  - split; [exact H1 | exact H2].
Defined.

Lemma C5_smaller_arc_convention_witness :
  turn_direction 360 180 0 = Some 1%Z
  /\ _curr_curve_direction
       (exec (_check_if_new_curve approx_two_pi (Some 0)) (at_angle 180))
     = Bound (Some 1%Z).
Proof.
  destruct (C5_smaller_arc_convention approx_two_pi (at_angle 180) 180 0 None
              [(0, 0, 0); (0, 10, 1); (0, 20, 2); (10, 20, 3)] 0%Z)
    as (_ & _ & H & _); try reflexivity.
  apply H; vm_compute; reflexivity.
Defined.

Lemma C6_zero_angle_offset_witness :
  exists reported,
    _calc_curr_angle approx_two_pi axis_angle zero_at_90
    = (Ret tt, with_curr_angle (Some reported) zero_at_90)
    /\ reported == 0.
Proof.
  destruct (C6_zero_angle_offset approx_two_pi axis_angle zero_at_90
              (0, 0) [(0, 0, 0)] (10, 0, 1) 90)
    as (reported & Hc & _ & _ & _ & H90 & _).
  - reflexivity.
  - reflexivity.
  - reflexivity.
  - intros H. vm_compute in H. discriminate H.
  - reflexivity.
  - exists reported. split; [exact Hc|].
    apply H90; vm_compute; reflexivity.
Defined.

Lemma C7_zero_delta_no_decision_witness :
  let s' := exec (update_xyt approx_two_pi axis_angle
                    (PyNum 0) (PyNum 30) (PyNum 3)) moving_up in
  _n_curves s' = _n_curves moving_up
  /\ _curr_curve_direction s' = _curr_curve_direction moving_up
  /\ _curr_curve_start_angle s' = _curr_curve_start_angle moving_up
  /\ _curr_curve_start_index s' = _curr_curve_start_index moving_up.
Proof.
  apply (C7_zero_delta_no_decision approx_two_pi axis_angle
           (PyNum 0) (PyNum 30) (PyNum 3) moving_up 0 (0 # 710));
    vm_compute; reflexivity.
Defined.

Lemma C8_n_curves_monotone_witness :
  exists n',
    _n_curves (run_updates approx_two_pi axis_angle
                 [(PyNum 0, PyNum 30, PyNum 3); (PyNum 10, PyNum 30, PyNum 4);
                  (PyNum 10, PyNum 20, PyNum 5)] moving_up) = Bound n'
    /\ (0 <= n')%Z.
Proof.
  destruct (C8_n_curves_monotone approx_two_pi axis_angle moving_up 0%Z)
    as [_ H].
  - reflexivity.
  - apply H.
Defined.

Lemma C9_update_validation_atomic_witness :
  (result (update_xyt approx_two_pi axis_angle (PyStr "a") (PyNum 0) (PyNum 0))
          moving_up = Raise ValueError
   /\ exec (update_xyt approx_two_pi axis_angle (PyStr "a") (PyNum 0) (PyNum 0))
           moving_up = moving_up)
  /\ (result (update_xyt approx_two_pi axis_angle
                (PyNum 0) (PyNum 0) (PyNum (-1))) moving_up = Raise ValueError
      /\ exec (update_xyt approx_two_pi axis_angle
                 (PyNum 0) (PyNum 0) (PyNum (-1))) moving_up = moving_up).
Proof.
  split.
  - apply (C9_update_validation_atomic approx_two_pi axis_angle
             (PyStr "a") (PyNum 0) (PyNum 0) moving_up).
    left. reflexivity.
  - apply (C9_update_validation_atomic approx_two_pi axis_angle
             (PyNum 0) (PyNum 0) (PyNum (-1)) moving_up).
    right. exists (-1). split; reflexivity.
Defined.

Lemma C10_window_append_only_witness :
  _recent_near_coords
    (exec (update_xyt approx_two_pi axis_angle (PyNum 0) (PyNum 30) (PyNum 3))
          moving_up)
  = Bound [(0, 0, 0); (0, 10, 1); (0, 20, 2); (0, 30, 3)].
Proof.
  destruct (C10_window_append_only approx_two_pi axis_angle moving_up
              [(0, 0, 0); (0, 10, 1); (0, 20, 2)]) as (H & _).
  - reflexivity.
  - apply (H 0 30 3). unfold Qle. simpl. lia.
Defined.

(** * _utils: colours and coordinates *)

Lemma int_below_spec (bound : Z) (v : Utils.pyobject) :
  Utils.int_below bound v = true <->
  exists z, Utils.int_of v = Some z /\ (0 <= z < bound)%Z.
Proof.
  unfold Utils.int_below. destruct (Utils.int_of v) as [z|].
  - rewrite andb_true_iff, Z.leb_le, Z.ltb_lt. split.
    + intros H. exists z. split; [reflexivity | lia].
    + intros (z' & Hz & H). injection Hz as <-. lia.
  - split; [discriminate | intros (z & H & _); discriminate H].
Qed.

Lemma rgb_bytes (z : Z) :
  (0 <= z < 2 ^ 24)%Z ->
  (0 <= z / 2 ^ 16 < 256)%Z /\ (0 <= (z / 256) mod 256 < 256)%Z
  /\ (0 <= z mod 256 < 256)%Z
  /\ (z / 2 ^ 16 * 65536 + (z / 256) mod 256 * 256 + z mod 256 = z)%Z.
Proof.
  intros Hz.
  change (2 ^ 24)%Z with 16777216%Z in Hz. change (2 ^ 16)%Z with 65536%Z.
  pose proof (Z.div_mod z 256 ltac:(lia)) as H1.
  pose proof (Z.div_mod (z / 256) 256 ltac:(lia)) as H2.
  pose proof (Z.mod_pos_bound z 256 ltac:(lia)) as B1.
  pose proof (Z.mod_pos_bound (z / 256) 256 ltac:(lia)) as B2.
  assert (H3 : (z / 256 / 256 = z / 65536)%Z)
    by (rewrite Z.div_div by lia; reflexivity).
  rewrite H3 in H2.
  assert (B3 : (0 <= z / 65536 < 256)%Z).
  { split; [apply Z.div_pos; lia | apply Z.div_lt_upper_bound; lia]. }
  repeat split; lia.
Qed.

(** X13 — [validate_attr_rgb] with a single number: the colour 0xRRGGBB
    is split into its red, green and blue bytes, each from 0 to 255, and the
    bytes give the number back. *)
Theorem X13_validate_attr_rgb_single_number (v : Utils.pyobject) (z : Z) :
  Utils.int_of v = Some z -> (0 <= z < 2 ^ 24)%Z ->
  exists r g b,
    Utils.validate_attr_rgb v true
    = Ret (Utils.VTuple [Utils.VInt r; Utils.VInt g; Utils.VInt b])
    /\ (0 <= r < 256)%Z /\ (0 <= g < 256)%Z /\ (0 <= b < 256)%Z
    /\ (r * 65536 + g * 256 + b = z)%Z.
Proof.
  intros Hv Hz.
  assert (Hb : Utils.int_below (2 ^ 24) v = true)
    by (apply int_below_spec; exists z; auto).
  unfold Utils.validate_attr_rgb. rewrite Hb, Hv. cbn [andb].
  exists (z / 2 ^ 16)%Z, ((z / 256) mod 256)%Z, (z mod 256)%Z.
  split; [reflexivity | apply rgb_bytes, Hz].
Qed.

(** X14 — whatever [validate_attr_rgb] returns is a triple of integers from 0 to
    255, which it accepts again unchanged with either setting of
    [accept_single_num]; a tuple that it accepts is returned as it is; and
    it raises nothing but [ValueError]. *)
Theorem X14_validate_attr_rgb_result (v : Utils.pyobject) (accept_single_num : bool) :
  (forall w, Utils.validate_attr_rgb v accept_single_num = Ret w ->
     (exists r g b,
        w = Utils.VTuple [r; g; b]
        /\ Utils.int_below 256 r = true /\ Utils.int_below 256 g = true
        /\ Utils.int_below 256 b = true)
     /\ (forall again, Utils.validate_attr_rgb w again = Ret w)
     /\ (Utils.is_tuple v = true -> w = v))
  /\ ((exists w, Utils.validate_attr_rgb v accept_single_num = Ret w)
      \/ Utils.validate_attr_rgb v accept_single_num = Raise ValueError).
Proof.
  assert (Hagain : forall r g b,
    Utils.int_below 256 r = true -> Utils.int_below 256 g = true ->
    Utils.int_below 256 b = true ->
    forall again,
      Utils.validate_attr_rgb (Utils.VTuple [r; g; b]) again
      = Ret (Utils.VTuple [r; g; b])).
  { intros r g b Hr Hg Hb again. unfold Utils.validate_attr_rgb.
    cbn [Utils.int_below Utils.int_of andb]. rewrite andb_false_r.
    cbn. unfold Utils.item. cbn. rewrite Hr, Hg, Hb. reflexivity. }
  unfold Utils.validate_attr_rgb.
  destruct (accept_single_num && Utils.int_below (2 ^ 24) v)%bool eqn:Es.
  - apply andb_true_iff in Es. destruct Es as [_ Hb].
    apply int_below_spec in Hb. destruct Hb as (z & Hz & Hr).
    destruct (rgb_bytes z Hr) as (Br & Bg & Bb & _).
    rewrite Hz. split; [|left; eauto].
    intros w Hw. injection Hw as <-.
    assert (Ir : Utils.int_below 256 (Utils.VInt (z / 2 ^ 16)) = true)
      by (apply int_below_spec; eexists; split; [reflexivity | exact Br]).
    assert (Ig : Utils.int_below 256 (Utils.VInt ((z / 256) mod 256)) = true)
      by (apply int_below_spec; eexists; split; [reflexivity | exact Bg]).
    assert (Ib : Utils.int_below 256 (Utils.VInt (z mod 256)) = true)
      by (apply int_below_spec; eexists; split; [reflexivity | exact Bb]).
    split; [eauto 10 | split].
    + apply Hagain; assumption.
    + intros Ht. destruct v; try discriminate Ht. discriminate Hz.
  - unfold Utils.validate_attr_type.
    destruct v as [| bv | zv | qv | sv | items | items | px py]; cbn;
      try (split; [intros w H; discriminate H | now right]).
    unfold Utils.item. cbn [Utils.items_of].
    destruct items as [| r [| g [| b [| extra rest]]]]; cbn;
      try (split; [intros w H; discriminate H | now right]).
    destruct (Utils.int_below 256 r) eqn:Hr; cbn;
      [| split; [intros w H; discriminate H | now right]].
    destruct (Utils.int_below 256 g) eqn:Hg; cbn;
      [| split; [intros w H; discriminate H | now right]].
    destruct (Utils.int_below 256 b) eqn:Hb; cbn;
      [| split; [intros w H; discriminate H | now right]].
    split; [| left; eauto].
    intros w Hw. injection Hw as <-.
    split; [eauto 10 | split; [| reflexivity]].
    apply Hagain; assumption.
Qed.

(** [validate_attr_is_coord], value by value. *)
Lemma validate_attr_is_coord_cases (v : Utils.pyobject) (change_none_to_0 : bool) :
  Utils.validate_attr_is_coord v change_none_to_0 =
  match v with
  | Utils.VNone =>
      if change_none_to_0 then Ret (Utils.VTuple [Utils.VInt 0; Utils.VInt 0])
      else Raise ValueError
  | Utils.VXYPoint a b =>
      if (Utils.is_int a && Utils.is_int b)%bool
      then Ret (Utils.VTuple [a; b]) else Raise ValueError
  | Utils.VTuple [a; b] | Utils.VList [a; b] =>
      if (Utils.is_int a && Utils.is_int b)%bool then Ret v
      else Raise ValueError
  | _ => Raise ValueError
  end.
Proof.
  unfold Utils.validate_attr_is_coord, Utils.validate_attr_type, Utils.item.
  destruct v as [| bv | zv | qv | sv | items | items | a b];
    destruct change_none_to_0; try reflexivity;
    try (destruct items as [| a [| b [| c rest]]]; try reflexivity);
    destruct a; try reflexivity; destruct b; reflexivity.
Qed.

(** X15 — [validate_attr_is_coord] accepts a pair of integers given as a
    tuple, a list or an [XYPoint], and [None] when [change_none_to_0] is set; a tuple
    or a list is returned as it is, an [XYPoint] as the tuple of its
    coordinates, [None] as (0, 0). Anything else raises [ValueError]. *)
Theorem X15_validate_attr_is_coord_accepts (v : Utils.pyobject)
    (change_none_to_0 : bool) :
  (forall w,
     Utils.validate_attr_is_coord v change_none_to_0 = Ret w <->
     (v = Utils.VNone /\ change_none_to_0 = true
      /\ w = Utils.VTuple [Utils.VInt 0; Utils.VInt 0])
     \/ (exists a b,
           Utils.is_int a = true /\ Utils.is_int b = true
           /\ ((v = Utils.VXYPoint a b /\ w = Utils.VTuple [a; b])
               \/ (v = Utils.VTuple [a; b] /\ w = v)
               \/ (v = Utils.VList [a; b] /\ w = v))))
  /\ ((exists w, Utils.validate_attr_is_coord v change_none_to_0 = Ret w)
      \/ Utils.validate_attr_is_coord v change_none_to_0 = Raise ValueError).
Proof.
  rewrite validate_attr_is_coord_cases.
  assert (Hno : forall w : Utils.pyobject,
    ((v = Utils.VNone /\ change_none_to_0 = true
      /\ w = Utils.VTuple [Utils.VInt 0; Utils.VInt 0])
     \/ (exists a b,
           Utils.is_int a = true /\ Utils.is_int b = true
           /\ ((v = Utils.VXYPoint a b /\ w = Utils.VTuple [a; b])
               \/ (v = Utils.VTuple [a; b] /\ w = v)
               \/ (v = Utils.VList [a; b] /\ w = v)))) ->
    match v with
    | Utils.VNone => change_none_to_0 = true
    | Utils.VXYPoint a b | Utils.VTuple [a; b] | Utils.VList [a; b] =>
        (Utils.is_int a && Utils.is_int b)%bool = true
    | _ => False
    end).
  { intros w [(-> & -> & _) | (a & b & Ia & Ib & [(-> & _) | [(-> & _) | (-> & _)]])];
      try reflexivity; now rewrite Ia, Ib. }
  destruct v as [| bv | zv | qv | sv | items | items | a b];
    try (split; [intros w; split; [intros H; discriminate H
                                  | intros H; destruct (Hno w H)]
                | now right]).
  - destruct change_none_to_0.
    + split; [| left; eauto]. intros w. split.
      * intros H. injection H as <-. left. auto.
      * intros [(_ & _ & ->) | (a & b & _ & _ & [(H & _) | [(H & _) | (H & _)]])];
          [reflexivity | discriminate H..].
    + split; [| now right]. intros w. split; [intros H; discriminate H|].
      intros H. discriminate (Hno w H).
  - destruct items as [| a [| b [| c rest]]];
      try (split; [intros w; split; [intros H; discriminate H
                                    | intros H; destruct (Hno w H)]
                  | now right]).
    destruct (Utils.is_int a && Utils.is_int b)%bool eqn:E.
    + apply andb_true_iff in E. destruct E as [Ia Ib].
      split; [| left; eauto]. intros w. split.
      * intros H. injection H as <-. right. exists a, b.
        split; [exact Ia | split; [exact Ib | right; left; auto]].
      * intros [(H & _) | (a' & b' & _ & _ & [(H & _) | [(_ & ->) | (H & _)]])];
          [discriminate H | discriminate H | reflexivity | discriminate H].
    + split; [| now right]. intros w. split; [intros H; discriminate H|].
      intros H. discriminate (Hno w H).
  - destruct items as [| a [| b [| c rest]]];
      try (split; [intros w; split; [intros H; discriminate H
                                    | intros H; destruct (Hno w H)]
                  | now right]).
    destruct (Utils.is_int a && Utils.is_int b)%bool eqn:E.
    + apply andb_true_iff in E. destruct E as [Ia Ib].
      split; [| left; eauto]. intros w. split.
      * intros H. injection H as <-. right. exists a, b.
        split; [exact Ia | split; [exact Ib | right; right; auto]].
      * intros [(H & _) | (a' & b' & _ & _ & [(H & _) | [(H & _) | (_ & ->)]])];
          [discriminate H | discriminate H | discriminate H | reflexivity].
    + split; [| now right]. intros w. split; [intros H; discriminate H|].
      intros H. discriminate (Hno w H).
  - destruct (Utils.is_int a && Utils.is_int b)%bool eqn:E.
    + apply andb_true_iff in E. destruct E as [Ia Ib].
      split; [| left; eauto]. intros w. split.
      * intros H. injection H as <-. right. exists a, b.
        split; [exact Ia | split; [exact Ib | left; auto]].
      * intros [(H & _) | (a' & b' & _ & _ & [(H & ->) | [(H & _) | (H & _)]])];
          [discriminate H | | discriminate H | discriminate H].
        now injection H as <- <-.
    + split; [| now right]. intros w. split; [intros H; discriminate H|].
      intros H. discriminate (Hno w H).
Qed.

(** The cases of the test suite for a centre: (1, 2) and XYPoint(1, 2) give
    (1, 2); 0, (1, 2, 3), (0.3, 1) and (0, None) raise [ValueError]. *)
Lemma validate_attr_is_coord_test_set_center :
  Utils.validate_attr_is_coord
    (Utils.VTuple [Utils.VInt 1; Utils.VInt 2]) false
  = Ret (Utils.VTuple [Utils.VInt 1; Utils.VInt 2])
  /\ Utils.validate_attr_is_coord
       (Utils.VXYPoint (Utils.VInt 1) (Utils.VInt 2)) false
     = Ret (Utils.VTuple [Utils.VInt 1; Utils.VInt 2])
  /\ Utils.validate_attr_is_coord (Utils.VInt 0) false = Raise ValueError
  /\ Utils.validate_attr_is_coord
       (Utils.VTuple [Utils.VInt 1; Utils.VInt 2; Utils.VInt 3]) false
     = Raise ValueError
  /\ Utils.validate_attr_is_coord
       (Utils.VTuple [Utils.VFloat (3 # 10); Utils.VInt 1]) false
     = Raise ValueError
  /\ Utils.validate_attr_is_coord
       (Utils.VTuple [Utils.VInt 0; Utils.VNone]) false
     = Raise ValueError.
Proof. repeat split. Qed.

(** * TrajectoryTracker *)

Lemma zip3_snoc {A B C : Type} (a : list A) (b : list B) (c : list C)
    (x : A) (y : B) (z : C) :
  List.length a = List.length c -> List.length b = List.length c ->
  Tracker.zip3 (a ++ [x]) (b ++ [y]) (c ++ [z])
  = Tracker.zip3 a b c ++ [(x, y, z)].
Proof.
  revert b c. induction a as [| a0 a IH]; intros [| b0 b] [| c0 c] Ha Hb;
    simpl in *; try discriminate; [reflexivity|].
  f_equal. apply IH; congruence.
Qed.

Lemma tracker_log_event_frame (e : Tracker.event) (s : Tracker.TrajectoryTracker) :
  Tracker.get_xyt (Tracker.log_event e s) = Tracker.get_xyt s
  /\ Tracker._tracking_active (Tracker.log_event e s) = Tracker._tracking_active s
  /\ Tracker._trajectory_x (Tracker.log_event e s) = Tracker._trajectory_x s
  /\ Tracker._trajectory_y (Tracker.log_event e s) = Tracker._trajectory_y s
  /\ Tracker._trajectory_time (Tracker.log_event e s) = Tracker._trajectory_time s.
Proof.
  unfold Tracker.log_event, Tracker.get_xyt.
  destruct (Tracker._log_level s =? 0)%Z; repeat split.
Qed.

Lemma tracker_validate_number (v : Utils.pyobject) :
  Utils.validate_func_arg_type v Utils.is_number false
  = if Utils.is_number v then Ret tt else Raise ValueError.
Proof. destruct v; reflexivity. Qed.

Lemma tracker_update_inactive (x y t : Utils.pyobject)
    (s : Tracker.TrajectoryTracker) :
  Tracker._tracking_active s = false ->
  Tracker.update_xyt x y t s = (Ret tt, s).
Proof. unfold Tracker.update_xyt. now intros ->. Qed.

Lemma tracker_update_rejected (x y t : Utils.pyobject)
    (s : Tracker.TrajectoryTracker) :
  Tracker._tracking_active s = true ->
  Tracker.accepted (x, y, t) = false ->
  Tracker.update_xyt x y t s = (Raise ValueError, s).
Proof.
  unfold Tracker.update_xyt, Tracker.accepted. intros -> Hacc. cbn [negb].
  rewrite !tracker_validate_number.
  destruct (Utils.is_number x); [| reflexivity].
  destruct (Utils.is_number y); [| reflexivity].
  unfold Utils.is_number in *.
  destruct (Utils.num_of t) as [q|]; [| reflexivity].
  cbn in Hacc |- *. apply negb_false_iff in Hacc. now rewrite Hacc.
Qed.

Lemma tracker_update_accepted (x y t : Utils.pyobject)
    (s : Tracker.TrajectoryTracker) :
  Tracker._tracking_active s = true ->
  Tracker.accepted (x, y, t) = true ->
  Tracker.balanced s ->
  let s' := snd (Tracker.update_xyt x y t s) in
  fst (Tracker.update_xyt x y t s) = Ret tt
  /\ Tracker.get_xyt s' = Tracker.get_xyt s ++ [(x, y, t)]
  /\ Tracker.balanced s'
  /\ Tracker._tracking_active s' = true.
Proof.
  unfold Tracker.update_xyt, Tracker.accepted.
  intros Hact Hacc [Bx By]. rewrite Hact. cbn [negb].
  rewrite !tracker_validate_number.
  apply andb_true_iff in Hacc. destruct Hacc as [Hxy Ht].
  apply andb_true_iff in Hxy. destruct Hxy as [Hx Hy].
  rewrite Hx, Hy.
  assert (Hnt : Utils.is_number t = true)
    by (unfold Utils.is_number; destruct (Utils.num_of t);
        [reflexivity | discriminate]).
  rewrite Hnt.
  destruct (Utils.num_of t) as [q|]; [| discriminate].
  apply negb_true_iff in Ht. rewrite Ht. cbn [fst snd].
  match goal with
  | |- context [Tracker.log_event ?e ?s0] =>
      destruct (tracker_log_event_frame e s0) as (Hg & Ha & Hlx & Hly & Hlt)
  end.
  unfold Tracker.balanced. rewrite Hg, Ha, Hlx, Hly, Hlt.
  unfold Tracker.get_xyt. cbn.
  split; [reflexivity|]. split; [apply zip3_snoc; assumption|].
  rewrite !length_app. cbn. split; [split; lia | reflexivity].
Qed.

Lemma tracker_inactive_run
    (samples : list (Utils.pyobject * Utils.pyobject * Utils.pyobject))
    (s : Tracker.TrajectoryTracker) :
  Tracker._tracking_active s = false -> Tracker.run_updates samples s = s.
Proof.
  intros Ha. induction samples as [| [[x y] t] rest IH]; [reflexivity|].
  cbn [Tracker.run_updates]. rewrite (tracker_update_inactive x y t s Ha).
  exact IH.
Qed.


(** X17 — a session on the tracker: [get_xyt()] gives back what was there
    before followed by the accepted points, in the order given, when
    tracking is active, and only what was there before when it is not. *)
Theorem X17_tracker_session
    (samples : list (Utils.pyobject * Utils.pyobject * Utils.pyobject))
    (s : Tracker.TrajectoryTracker) :
  Tracker.balanced s ->
  Tracker.balanced (Tracker.run_updates samples s)
  /\ Tracker.get_xyt (Tracker.run_updates samples s)
     = Tracker.get_xyt s
       ++ (if Tracker._tracking_active s
           then filter Tracker.accepted samples else []).
Proof.
  intros Hb. destruct (Tracker._tracking_active s) eqn:Ha.
  2:{ rewrite (tracker_inactive_run samples s Ha), app_nil_r. auto. }
  revert s Hb Ha.
  induction samples as [| [[x y] t] rest IH]; intros s Hb Ha.
  - simpl. now rewrite app_nil_r.
  - cbn [Tracker.run_updates filter].
    destruct (Tracker.accepted (x, y, t)) eqn:Hacc.
    + destruct (tracker_update_accepted x y t s Ha Hacc Hb)
        as (_ & Hg & Hb' & Ha').
      destruct (IH _ Hb' Ha') as (Hb'' & Hg'').
      split; [exact Hb''|]. rewrite Hg'', Hg, <- app_assoc. reflexivity.
    + rewrite (tracker_update_rejected x y t s Ha Hacc). cbn [snd].
      apply IH; assumption.
Qed.

(** X18 — [reset] on the tracker: with [None] or a boolean it completes, empties
    the trajectory and sets the flag to the boolean (keeps it for [None]);
    with anything else it raises [ValueError] and leaves the object as it
    was, trajectory included. *)
Theorem X18_tracker_reset (v : Utils.pyobject) (s : Tracker.TrajectoryTracker) :
  let s' := snd (Tracker.reset v s) in
  (v = Utils.VNone ->
     fst (Tracker.reset v s) = Ret tt /\ Tracker.get_xyt s' = []
     /\ Tracker.balanced s'
     /\ Tracker._tracking_active s' = Tracker._tracking_active s)
  /\ (forall b, v = Utils.VBool b ->
     fst (Tracker.reset v s) = Ret tt /\ Tracker.get_xyt s' = []
     /\ Tracker.balanced s'
     /\ Tracker._tracking_active s' = b)
  /\ (v <> Utils.VNone -> Utils.is_bool v = false ->
     Tracker.reset v s = (Raise ValueError, s)).
Proof.
  cbv zeta. split; [| split].
  - intros ->. unfold Tracker.reset. cbn [Utils.is_none negb fst snd].
    match goal with
    | |- context [Tracker.log_event ?e ?s0] =>
        destruct (tracker_log_event_frame e s0) as (Hg & Ha & Hlx & Hly & Hlt)
    end.
    unfold Tracker.balanced. rewrite Hg, Ha, Hlx, Hly, Hlt.
    repeat split.
  - intros b ->. unfold Tracker.reset, Tracker.set_tracking_active,
      Tracker._log_setter, Tracker.log_event, Tracker.balanced,
      Tracker.get_xyt, Utils.validate_attr_type.
    cbn. destruct (Tracker._log_level s >? Tracker.log_trace)%Z; cbn;
      destruct (Tracker._log_level s =? 0)%Z; cbn; repeat split.
  - intros Hn Hb. unfold Tracker.reset, Tracker.set_tracking_active,
      Utils.validate_attr_type.
    destruct v; try congruence; try discriminate Hb; reflexivity.
Qed.

(** A tracker as the constructor leaves it ignores every update. *)
Lemma tracker_new_ignores_updates
    (samples : list (Utils.pyobject * Utils.pyobject * Utils.pyobject)) :
  Tracker.get_xyt (Tracker.run_updates samples (snd Tracker.__init__)) = [].
Proof. now rewrite tracker_inactive_run. Qed.

(** * The further properties at sample inputs *)

Lemma X1_remove_far_reference_witness :
  let s' := exec (_remove_far_enough_recent_coords 0 30) spaced_monitor in
  let far := far_enough (sq_min_distance spaced_monitor) 0 30 in
  let l := [(0, 0, 0); (0, 10, 1); (0, 20, 2); (0, 25, 3)] in
  (exists k c,
     (1 <= k < List.length l)%nat /\ nth_error l k = Some c /\ far c = true
     /\ _pre_recent_coord s' = Bound (Some (xy_of c))
     /\ forall j c', (k < j < List.length l)%nat -> nth_error l j = Some c' ->
                     far c' = false)
  \/ (_pre_recent_coord s' = Bound None
      /\ forall j c', (1 <= j < List.length l)%nat -> nth_error l j = Some c' ->
                      far c' = false).
Proof.
  apply (X1_remove_far_reference 0 30 spaced_monitor
           [(0, 0, 0); (0, 10, 1); (0, 20, 2); (0, 25, 3)]).
  - reflexivity.
  - discriminate.
Defined.

(** On [spaced_monitor] the reference for (0, 30) is the second sample:
    the fourth and the third are nearer than 15, the first is never
    looked at. *)
Lemma spaced_monitor_reference :
  _pre_recent_coord
    (exec (_remove_far_enough_recent_coords 0 30) spaced_monitor)
  = Bound (Some (0, 10)).
Proof. reflexivity. Qed.

Lemma X2_update_xyt_angle_witness :
  let s' := exec (update_xyt approx_two_pi axis_angle
                    (PyNum 0) (PyNum 30) (PyNum 3)) moving_up in
  _pre_recent_coord s'
  = _pre_recent_coord (exec (_remove_far_enough_recent_coords 0 30) moving_up)
  /\ (_pre_recent_coord s' = Bound None -> _curr_angle s' = Bound None)
  /\ (forall p z, _pre_recent_coord s' = Bound (Some p) ->
        _zero_angle moving_up = Bound z ->
        _curr_angle s'
        = Bound (Some (shift_zero z (_max_angle approx_two_pi moving_up)
                         (to_units approx_two_pi (_angle_units moving_up)
                            (axis_angle p (0, 30, 3)))))).
Proof.
  apply (X2_update_xyt_angle approx_two_pi axis_angle 0 30 3 moving_up
           [(0, 0, 0); (0, 10, 1); (0, 20, 2)] (Some (0, 10)) (Some 0)).
  - unfold Qle. simpl. lia.
  - reflexivity.
  - reflexivity.
  - reflexivity.
Defined.

Lemma X3_remove_far_zero_distance_witness :
  _pre_recent_coord (exec (_remove_far_enough_recent_coords 0 30) moving_up)
  = Bound (Some (0, 20)).
Proof.
  apply (X3_remove_far_zero_distance 0 30 moving_up
           [(0, 0, 0); (0, 10, 1)] (0, 20, 2)).
  - reflexivity.
  - discriminate.
  - reflexivity.
Defined.

Lemma X5_curves_alternate_witness :
  _curr_curve_direction
    (exec (update_xyt approx_two_pi axis_angle (PyNum 10) (PyNum 30) (PyNum 4))
          after_first_curve)
  = Bound (Some (-1)%Z).
Proof.
  apply (X5_curves_alternate approx_two_pi axis_angle
           (PyNum 10) (PyNum 30) (PyNum 4) after_first_curve 1%Z 1%Z).
  - reflexivity.
  - reflexivity.
  - left. reflexivity.
  - vm_compute. reflexivity.
Defined.

Lemma X6_new_curve_starts_at_newest_sample_witness :
  let s' := exec (update_xyt approx_two_pi axis_angle
                    (PyNum 10) (PyNum 30) (PyNum 4)) after_first_curve in
  result curr_curve_start_xyt s' = Ret (Some (10, 30, 4))
  /\ exists c, result curr_angle s' = Ret (Some c)
               /\ result curr_curve_start_angle s' = Ret (Some c).
Proof.
  apply (X6_new_curve_starts_at_newest_sample approx_two_pi axis_angle
           10 30 4 after_first_curve 1%Z).
  - unfold Qle. simpl. lia.
  - reflexivity.
  - vm_compute. reflexivity.
Defined.

Lemma X7_window_is_the_session_witness :
  _recent_near_coords
    (run_updates approx_two_pi axis_angle
       (map to_args [(0, 0, 0); (10, 0, 1)]) (exec reset fresh_monitor))
  = Bound [(0, 0, 0); (10, 0, 1)].
Proof.
  apply (X7_window_is_the_session approx_two_pi axis_angle
           [(0, 0, 0); (10, 0, 1)] fresh_monitor).
  repeat constructor; unfold Qle; simpl; lia.
Defined.

Lemma X8_turn_direction_whole_turns_witness :
  turn_direction 360 (350 + inject_Z 1 * 360) (10 + inject_Z (-1) * 360)
  = turn_direction 360 350 10.
Proof.
  apply (X8_turn_direction_whole_turns 360 350 10 1 (-1)). reflexivity.
Defined.

Lemma X9_turn_direction_reverse_witness :
  turn_direction 360 0 90 = Some (-1)%Z.
Proof.
  destruct (X9_turn_direction_reverse 360 90 0) as (_ & H & _).
  - reflexivity.
  - apply H.
    + vm_compute. reflexivity.
    + intros E. vm_compute in E. discriminate E.
Defined.

Lemma X10_shift_zero_whole_turns_witness :
  shift_zero (90 + inject_Z 1 * 360) 360 (0 + inject_Z 1 * 360)
  == shift_zero 90 360 0.
Proof.
  apply (X10_shift_zero_whole_turns 90 360 0 1 1).
  - reflexivity.
  - intros H. vm_compute in H. discriminate H.
  - intros H. vm_compute in H. discriminate H.
Defined.

Lemma X12_public_interface_never_computes_witness :
  let s := run_calls approx_two_pi axis_angle
             [CallSetZeroAngle (PyNum 0); CallReset;
              CallUpdate (PyNum 0) (PyNum 0) (PyNum 0);
              CallUpdate (PyNum 0) (PyNum 10) (PyNum 1);
              CallUpdate (PyNum 10) (PyNum 10) (PyNum 2)] fresh_monitor in
  (forall x y t,
     exists e, result (update_xyt approx_two_pi axis_angle x y t) s = Raise e)
  /\ result curr_angle s = Raise AttributeError
  /\ (result n_curves s = Raise AttributeError \/ result n_curves s = Ret 0%Z)
  /\ (result curr_curve_direction s = Raise AttributeError
      \/ result curr_curve_direction s = Ret None).
Proof.
  apply (X12_public_interface_never_computes approx_two_pi axis_angle
           (PyNum 1) (PyNum 0) (PyUnits Degrees) fresh_monitor).
  reflexivity.
Defined.

Lemma X13_validate_attr_rgb_single_number_witness :
  exists r g b,
    Utils.validate_attr_rgb (Utils.VInt 16744448) true
    = Ret (Utils.VTuple [Utils.VInt r; Utils.VInt g; Utils.VInt b])
    /\ (0 <= r < 256)%Z /\ (0 <= g < 256)%Z /\ (0 <= b < 256)%Z
    /\ (r * 65536 + g * 256 + b = 16744448)%Z.
Proof.
  apply (X13_validate_attr_rgb_single_number (Utils.VInt 16744448) 16744448).
  - reflexivity.
  - simpl. lia.
Defined.

Lemma X14_validate_attr_rgb_result_witness :
  Utils.validate_attr_rgb
    (Utils.VTuple [Utils.VInt 255; Utils.VInt 128; Utils.VInt 0]) true
  = Ret (Utils.VTuple [Utils.VInt 255; Utils.VInt 128; Utils.VInt 0]).
Proof.
  destruct (X14_validate_attr_rgb_result (Utils.VInt 16744448) true) as [H _].
  destruct (H (Utils.VTuple [Utils.VInt 255; Utils.VInt 128; Utils.VInt 0]))
    as (_ & Hagain & _).
  - reflexivity.
  - apply Hagain.
Defined.


Lemma X17_tracker_session_witness :
  Tracker.get_xyt
    (Tracker.run_updates
       [(Utils.VInt 1, Utils.VInt 2, Utils.VInt 0);
        (Utils.VStr "a", Utils.VInt 0, Utils.VInt 1);
        (Utils.VInt 3, Utils.VInt 4, Utils.VInt (-1));
        (Utils.VInt 5, Utils.VInt 6, Utils.VFloat (5 # 2))]
       Tracker.active_tracker)
  = [(Utils.VInt 1, Utils.VInt 2, Utils.VInt 0);
     (Utils.VInt 5, Utils.VInt 6, Utils.VFloat (5 # 2))].
Proof.
  destruct (X17_tracker_session
              [(Utils.VInt 1, Utils.VInt 2, Utils.VInt 0);
               (Utils.VStr "a", Utils.VInt 0, Utils.VInt 1);
               (Utils.VInt 3, Utils.VInt 4, Utils.VInt (-1));
               (Utils.VInt 5, Utils.VInt 6, Utils.VFloat (5 # 2))]
              Tracker.active_tracker) as [_ H].
  - split; reflexivity.
  - rewrite H. reflexivity.
Defined.

Lemma X18_tracker_reset_witness :
  Tracker.reset (Utils.VStr "yes") Tracker.active_tracker
  = (Raise ValueError, Tracker.active_tracker).
Proof.
  destruct (X18_tracker_reset (Utils.VStr "yes") Tracker.active_tracker)
    as (_ & _ & H).
  apply H.
  - discriminate.
  - reflexivity.
Defined.
